(** * Job Scraper front end (src/static/app.js): the scrape-progress monitor

    A shallow embedding of the parts of [JobScraperApp] that drive the
    scrape-progress polling loop, the URL input and the job search, together
    with the properties the specification states about them.

    - JavaScript strings are sequences of UTF-16 code units: [jsstring].
    - JavaScript numbers are IEEE-754 binary64 values: [number], with the
      arithmetic of [SpecFloat] at precision 53 and maximal exponent 1024.
    - The application object and the parts of the DOM it writes are one record,
      [app]; methods are state transformers, and a method that can throw runs
      in the state-and-exception monad [M].
    - An [async] method is cut at its [await]: the part before it issues the
      request, the part after it is resumed by the event loop ([step]) when the
      environment delivers the outcome of the fetch. *)

From Stdlib Require Import List Bool ZArith NArith Lia String Ascii DecimalString.
From Stdlib Require Import Floats.SpecFloat.
Import ListNotations.

Local Open Scope Z_scope.

(** ** Strings *)

(** A string is its list of UTF-16 code units. *)
Definition jsstring := list N.

(** A string literal of the source (all of them are ASCII). *)
Definition lit (s : string) : jsstring :=
  map N_of_ascii (list_ascii_of_string s).

Fixpoint jsstring_eqb (s t : jsstring) : bool :=
  match s, t with
  | [], [] => true
  | c :: s', d :: t' => N.eqb c d && jsstring_eqb s' t'
  | _, _ => false
  end.

(** ** Numbers *)

Module Number.

Definition number := spec_float.

Definition prec : Z := 53.
Definition emax : Z := 1024.

Definition div : number -> number -> number := SFdiv prec emax.
Definition mul : number -> number -> number := SFmul prec emax.
Definition ltb : number -> number -> bool := SFltb.
Definition leb : number -> number -> bool := SFleb.
Definition eqb : number -> number -> bool := SFeqb.

(** The number denoted by an integer literal. *)
Definition of_Z (z : Z) : number := binary_normalize prec emax z 0 false.

Definition zero : number := S754_zero false.
Definition hundred : number := of_Z 100.

(** [x] is the rational [p / q], exactly ([q] positive). *)
Definition is_ratio (x : number) (p q : Z) : Prop :=
  match x with
  | S754_zero _ => p = 0
  | S754_finite s m e =>
      let v := if s then Z.neg m else Z.pos m in
      if 0 <=? e then v * 2 ^ e * q = p else v * q = p * 2 ^ (- e)
  | _ => False
  end.

(** [x] is within [2 ^ (- k)] of the rational [p / q] ([q] positive). *)
Definition within (x : number) (p q k : Z) : bool :=
  match x with
  | S754_zero _ => Z.abs p * 2 ^ k <=? q
  | S754_finite s m e =>
      let v := if s then Z.neg m else Z.pos m in
      if 0 <=? e then Z.abs (v * 2 ^ e * q - p) * 2 ^ k <=? q
      else Z.abs (v * q - p * 2 ^ (- e)) * 2 ^ k <=? q * 2 ^ (- e)
  | _ => false
  end.

End Number.

Import Number.

(** ** The progress snapshot *)

(** The body of [GET /scrape/status/{sessionId}]. *)
Record ProgressStatus := {
  status : jsstring;
  total_urls : number;
  completed : number;
  success_count : number;
  error_count : number
}.

(** An arithmetic operation carried out while a number is computed. *)
Inductive arith_op :=
| OpDiv (dividend divisor : number)
| OpMul (a b : number).

(** [status.total_urls > 0 ? (status.completed / status.total_urls) * 100 : 0]
    with the operations it carries out, in order. *)
Definition percentage_ops (s : ProgressStatus) : number * list arith_op :=
  if ltb zero (total_urls s) then
    let q := div (completed s) (total_urls s) in
    (mul q hundred, [OpDiv (completed s) (total_urls s); OpMul q hundred])
  else (zero, []).

Definition percentage (s : ProgressStatus) : number := fst (percentage_ops s).

Definition mkStatus (st : string) (t c ok err : Z) : ProgressStatus :=
  {| status := lit st; total_urls := of_Z t; completed := of_Z c;
     success_count := of_Z ok; error_count := of_Z err |}.


(** ** Jobs, errors, requests *)

(** The fields of a job posting that the search reads; [None] is [null]. *)
Record Job := {
  job_id : jsstring;
  job_title : option jsstring;
  company_name : option jsstring;
  location : option jsstring
}.

(** A thrown [Error] object, with its [message]. *)
Record js_error := { message : jsstring }.

(** The second argument of [showNotification]. *)
Inductive ntype := success | error | warning | info.

(** A call of [fetch]: the URL, and for [POST /scrape] the [urls] of its body. *)
Inductive request :=
| Get (url : jsstring)
| Post (url : jsstring) (urls : list jsstring).

(** What the environment answers to one [fetch] followed by
    [response.json()]: the fetch rejects, or it resolves to a response with an
    HTTP status whose body either fails to decode or decodes to a value. *)
Inductive fetch_outcome (A : Type) :=
| Rejected (e : js_error)
| Responded (http_status : Z) (json : js_error + A).
Arguments Rejected {A} e.
Arguments Responded {A} http_status json.

(** A callback handed to [setTimeout]; [checkProgress] is the only one that the
    monitor schedules. *)
Inductive callback := CheckProgress.

(** ** The application object, the DOM it writes, and the event loop *)

Record app := {
  (* this.* *)
  currentSession : option jsstring;
  currentJobs : list Job;
  (* the DOM *)
  job_urls : jsstring;                      (* #job-urls .value *)
  progress_hidden : bool;                   (* #progress-section has class hidden *)
  progress_bar : number;                    (* #progress-bar width, in percent *)
  progress_text : number * number;          (* #progress-text: completed/total_urls *)
  progress_details : number * number;       (* #progress-details: success, errors *)
  jobs_grid : list Job;                     (* #jobs-grid: the cards, in order *)
  empty_state_hidden : bool;                (* #empty-state has class hidden *)
  notifications : list (jsstring * ntype);  (* showNotification calls, oldest first *)
  console : list jsstring;                  (* console.error calls, oldest first *)
  (* the event loop *)
  requests : list request;                  (* fetch calls, oldest first *)
  awaiting_status : nat;                    (* checkProgress calls at their await *)
  awaiting_jobs : nat;                      (* loadJobs calls at their await *)
  awaiting_scrape : list (list jsstring);   (* startScraping calls at their await, with urls *)
  timers : list (Z * callback)              (* pending setTimeout calls: delay in ms, callback *)
}.

Definition with_session (v : option jsstring) (a : app) : app :=
  {| currentSession := v; currentJobs := currentJobs a; job_urls := job_urls a;
     progress_hidden := progress_hidden a; progress_bar := progress_bar a;
     progress_text := progress_text a; progress_details := progress_details a;
     jobs_grid := jobs_grid a; empty_state_hidden := empty_state_hidden a;
     notifications := notifications a; console := console a;
     requests := requests a; awaiting_status := awaiting_status a;
     awaiting_jobs := awaiting_jobs a; awaiting_scrape := awaiting_scrape a;
     timers := timers a |}.

Definition with_jobs (v : list Job) (a : app) : app :=
  {| currentSession := currentSession a; currentJobs := v; job_urls := job_urls a;
     progress_hidden := progress_hidden a; progress_bar := progress_bar a;
     progress_text := progress_text a; progress_details := progress_details a;
     jobs_grid := jobs_grid a; empty_state_hidden := empty_state_hidden a;
     notifications := notifications a; console := console a;
     requests := requests a; awaiting_status := awaiting_status a;
     awaiting_jobs := awaiting_jobs a; awaiting_scrape := awaiting_scrape a;
     timers := timers a |}.

Definition with_progress_hidden (v : bool) (a : app) : app :=
  {| currentSession := currentSession a; currentJobs := currentJobs a; job_urls := job_urls a;
     progress_hidden := v; progress_bar := progress_bar a;
     progress_text := progress_text a; progress_details := progress_details a;
     jobs_grid := jobs_grid a; empty_state_hidden := empty_state_hidden a;
     notifications := notifications a; console := console a;
     requests := requests a; awaiting_status := awaiting_status a;
     awaiting_jobs := awaiting_jobs a; awaiting_scrape := awaiting_scrape a;
     timers := timers a |}.

Definition with_progress (bar : number) (text details : number * number) (a : app) : app :=
  {| currentSession := currentSession a; currentJobs := currentJobs a; job_urls := job_urls a;
     progress_hidden := progress_hidden a; progress_bar := bar;
     progress_text := text; progress_details := details;
     jobs_grid := jobs_grid a; empty_state_hidden := empty_state_hidden a;
     notifications := notifications a; console := console a;
     requests := requests a; awaiting_status := awaiting_status a;
     awaiting_jobs := awaiting_jobs a; awaiting_scrape := awaiting_scrape a;
     timers := timers a |}.

Definition with_grid (grid : list Job) (empty_hidden : bool) (a : app) : app :=
  {| currentSession := currentSession a; currentJobs := currentJobs a; job_urls := job_urls a;
     progress_hidden := progress_hidden a; progress_bar := progress_bar a;
     progress_text := progress_text a; progress_details := progress_details a;
     jobs_grid := grid; empty_state_hidden := empty_hidden;
     notifications := notifications a; console := console a;
     requests := requests a; awaiting_status := awaiting_status a;
     awaiting_jobs := awaiting_jobs a; awaiting_scrape := awaiting_scrape a;
     timers := timers a |}.

Definition with_notifications (v : list (jsstring * ntype)) (a : app) : app :=
  {| currentSession := currentSession a; currentJobs := currentJobs a; job_urls := job_urls a;
     progress_hidden := progress_hidden a; progress_bar := progress_bar a;
     progress_text := progress_text a; progress_details := progress_details a;
     jobs_grid := jobs_grid a; empty_state_hidden := empty_state_hidden a;
     notifications := v; console := console a;
     requests := requests a; awaiting_status := awaiting_status a;
     awaiting_jobs := awaiting_jobs a; awaiting_scrape := awaiting_scrape a;
     timers := timers a |}.

Definition with_console (v : list jsstring) (a : app) : app :=
  {| currentSession := currentSession a; currentJobs := currentJobs a; job_urls := job_urls a;
     progress_hidden := progress_hidden a; progress_bar := progress_bar a;
     progress_text := progress_text a; progress_details := progress_details a;
     jobs_grid := jobs_grid a; empty_state_hidden := empty_state_hidden a;
     notifications := notifications a; console := v;
     requests := requests a; awaiting_status := awaiting_status a;
     awaiting_jobs := awaiting_jobs a; awaiting_scrape := awaiting_scrape a;
     timers := timers a |}.

Definition with_requests (v : list request) (a : app) : app :=
  {| currentSession := currentSession a; currentJobs := currentJobs a; job_urls := job_urls a;
     progress_hidden := progress_hidden a; progress_bar := progress_bar a;
     progress_text := progress_text a; progress_details := progress_details a;
     jobs_grid := jobs_grid a; empty_state_hidden := empty_state_hidden a;
     notifications := notifications a; console := console a;
     requests := v; awaiting_status := awaiting_status a;
     awaiting_jobs := awaiting_jobs a; awaiting_scrape := awaiting_scrape a;
     timers := timers a |}.

Definition with_awaiting_status (v : nat) (a : app) : app :=
  {| currentSession := currentSession a; currentJobs := currentJobs a; job_urls := job_urls a;
     progress_hidden := progress_hidden a; progress_bar := progress_bar a;
     progress_text := progress_text a; progress_details := progress_details a;
     jobs_grid := jobs_grid a; empty_state_hidden := empty_state_hidden a;
     notifications := notifications a; console := console a;
     requests := requests a; awaiting_status := v;
     awaiting_jobs := awaiting_jobs a; awaiting_scrape := awaiting_scrape a;
     timers := timers a |}.

Definition with_awaiting_jobs (v : nat) (a : app) : app :=
  {| currentSession := currentSession a; currentJobs := currentJobs a; job_urls := job_urls a;
     progress_hidden := progress_hidden a; progress_bar := progress_bar a;
     progress_text := progress_text a; progress_details := progress_details a;
     jobs_grid := jobs_grid a; empty_state_hidden := empty_state_hidden a;
     notifications := notifications a; console := console a;
     requests := requests a; awaiting_status := awaiting_status a;
     awaiting_jobs := v; awaiting_scrape := awaiting_scrape a;
     timers := timers a |}.

Definition with_awaiting_scrape (v : list (list jsstring)) (a : app) : app :=
  {| currentSession := currentSession a; currentJobs := currentJobs a; job_urls := job_urls a;
     progress_hidden := progress_hidden a; progress_bar := progress_bar a;
     progress_text := progress_text a; progress_details := progress_details a;
     jobs_grid := jobs_grid a; empty_state_hidden := empty_state_hidden a;
     notifications := notifications a; console := console a;
     requests := requests a; awaiting_status := awaiting_status a;
     awaiting_jobs := awaiting_jobs a; awaiting_scrape := v;
     timers := timers a |}.

Definition with_timers (v : list (Z * callback)) (a : app) : app :=
  {| currentSession := currentSession a; currentJobs := currentJobs a; job_urls := job_urls a;
     progress_hidden := progress_hidden a; progress_bar := progress_bar a;
     progress_text := progress_text a; progress_details := progress_details a;
     jobs_grid := jobs_grid a; empty_state_hidden := empty_state_hidden a;
     notifications := notifications a; console := console a;
     requests := requests a; awaiting_status := awaiting_status a;
     awaiting_jobs := awaiting_jobs a; awaiting_scrape := awaiting_scrape a;
     timers := v |}.

(** ** Methods that can throw: state and exceptions *)

Definition M (A : Type) : Type := app -> (A + js_error) * app.

Definition ret {A} (x : A) : M A := fun a => (inl x, a).

Definition bind {A B} (m : M A) (k : A -> M B) : M B :=
  fun a => match m a with
           | (inl x, a') => k x a'
           | (inr e, a') => (inr e, a')
           end.

Definition throw {A} (e : js_error) : M A := fun a => (inr e, a).

(** A statement that cannot throw. *)
Definition exec (f : app -> app) : M unit := fun a => (inl tt, f a).

(** [try { body } catch (error) { handler }] around statements whose handler
    cannot throw. *)
Definition try_catch (body : M unit) (handler : js_error -> app -> app) : app -> app :=
  fun a => match body a with
           | (inl _, a') => a'
           | (inr e, a') => handler e a'
           end.

Notation "x <- m ;; k" := (bind m (fun x => k))
  (at level 61, m at next level, right associativity).
Notation "m ;;; k" := (bind m (fun _ => k))
  (at level 61, right associativity).

(** ** Small methods *)

(** [showNotification(message, type)]: the notification element it appends.
    Its slide-in and removal timers only animate that element. *)
Definition showNotification (msg : jsstring) (ty : ntype) (a : app) : app :=
  with_notifications (notifications a ++ [(msg, ty)]) a.

(** [console.error(label, error)]: the label is recorded. *)
Definition console_error (label : jsstring) (a : app) : app :=
  with_console (console a ++ [label]) a.

Definition showProgressSection : app -> app := with_progress_hidden false.
Definition hideProgressSection : app -> app := with_progress_hidden true.

(** [setTimeout(cb, delay)] *)
Definition setTimeout (cb : callback) (delay : Z) (a : app) : app :=
  with_timers (timers a ++ [(delay, cb)]) a.

(** [displayJobs(jobs)] *)
Definition displayJobs (jobs : list Job) (a : app) : app :=
  if Nat.eqb (List.length jobs) 0 then with_grid [] false a
  else with_grid jobs true a.

(** ** apiCall *)

Definition apiBase : jsstring := lit "/api".

(** [response.ok]: the HTTP status is in 200..299. *)
Definition response_ok (http_status : Z) : bool :=
  (200 <=? http_status) && (http_status <=? 299).

(** The decimal digits of an integer, as a template literal prints it. *)
Definition decimal (z : Z) : jsstring := lit (NilZero.string_of_int (Z.to_int z)).

(** [new Error(`HTTP error! status: ${response.status}`)] *)
Definition http_error (http_status : Z) : js_error :=
  {| message := lit "HTTP error! status: " ++ decimal http_status |}.

(** The part of [apiCall] up to [await fetch(...)]: the request goes out. *)
Definition apiCall_request (r : request) (a : app) : app :=
  with_requests (requests a ++ [r]) a.

(** The [catch] block of [apiCall]: log, notify, rethrow. *)
Definition apiCall_catch {A} (e : js_error) : M A :=
  exec (console_error (lit "API call failed:")) ;;;
  exec (showNotification (lit "API call failed: " ++ message e) error) ;;;
  throw e.

(** The part of [apiCall] after [await fetch(...)], given what came back. *)
Definition apiCall_settle {A} (o : fetch_outcome A) : M A :=
  match o with
  | Rejected e => apiCall_catch e
  | Responded http_status json =>
      if negb (response_ok http_status) then apiCall_catch (http_error http_status)
      else match json with
           | inl e => apiCall_catch e
           | inr v => ret v
           end
  end.

(** ** loadJobs *)

Definition jobs_url : jsstring := apiBase ++ lit "/jobs?limit=50".

(** [loadJobs] up to its [await]. *)
Definition loadJobs_request (a : app) : app :=
  with_awaiting_jobs (S (awaiting_jobs a)) (apiCall_request (Get jobs_url) a).

(** [loadJobs] after its [await]; the body of the response is [response.jobs]. *)
Definition loadJobs_resume (o : fetch_outcome (list Job)) : app -> app :=
  try_catch
    (jobs <- apiCall_settle o ;;
     exec (with_jobs jobs) ;;;
     exec (fun a => displayJobs (currentJobs a) a))
    (fun _ a => displayJobs [] (console_error (lit "Failed to load jobs:") a)).

(** ** The scrape-progress monitor *)

(** [updateProgress(status)] for a status object: the three DOM writes. *)
Definition updateProgress_dom (s : ProgressStatus) : app -> app :=
  with_progress (percentage s) (completed s, total_urls s)
                (success_count s, error_count s).

(** The [TypeError] of reading a property of [null]. *)
Definition null_type_error : js_error :=
  {| message := lit "Cannot read properties of null (reading 'total_urls')" |}.

(** [updateProgress(status)]; the decoded body may be [null] ([None]). *)
Definition updateProgress (s : option ProgressStatus) : M unit :=
  match s with
  | None => throw null_type_error
  | Some s => exec (updateProgress_dom s)
  end.

(** [String(this.currentSession)] inside a template literal. *)
Definition session_text (s : option jsstring) : jsstring :=
  match s with
  | None => lit "null"
  | Some sid => sid
  end.

Definition status_url (s : option jsstring) : jsstring :=
  apiBase ++ lit "/scrape/status/" ++ session_text s.

(** [checkProgress] up to its [await]: the status request goes out. *)
Definition checkProgress_request (a : app) : app :=
  with_awaiting_status (S (awaiting_status a))
    (apiCall_request (Get (status_url (currentSession a))) a).

(** The statements of [checkProgress] that follow [updateProgress]. *)
Definition checkProgress_branch (s : ProgressStatus) (a : app) : app :=
  if jsstring_eqb (status s) (lit "running") then
    setTimeout CheckProgress 2000 a
  else
    let a1 := hideProgressSection a in
    if jsstring_eqb (status s) (lit "completed") then
      showNotification (lit "Scraping completed successfully") success
        (loadJobs_request a1)
    else
      showNotification (lit "Scraping failed") error a1.

(** The [status.status] read of [checkProgress]; after [updateProgress]
    returned, the body is an object. *)
Definition checkProgress_after (s : option ProgressStatus) : M unit :=
  match s with
  | None => throw null_type_error
  | Some s => exec (checkProgress_branch s)
  end.

(** [checkProgress] after its [await]. *)
Definition checkProgress_resume (o : fetch_outcome (option ProgressStatus)) : app -> app :=
  try_catch
    (s <- apiCall_settle o ;;
     updateProgress s ;;;
     checkProgress_after s)
    (fun _ a => hideProgressSection (console_error (lit "Failed to check progress:") a)).

(** JavaScript truthiness of [this.currentSession]: [null] and the empty
    string are falsy. *)
Definition truthy (s : option jsstring) : bool :=
  match s with
  | None => false
  | Some [] => false
  | Some (_ :: _) => true
  end.

(** [monitorScrapingProgress()] up to the first [await]. *)
Definition monitorScrapingProgress (a : app) : app :=
  if negb (truthy (currentSession a)) then a
  else checkProgress_request a.

(** ** The URL input *)

(** WhiteSpace and LineTerminator code units, which [trim] strips. *)
Definition is_white_space (c : N) : bool :=
  match c with
  | 9 | 10 | 11 | 12 | 13 | 32 | 160 | 5760
  | 8192 | 8193 | 8194 | 8195 | 8196 | 8197 | 8198 | 8199 | 8200 | 8201 | 8202
  | 8232 | 8233 | 8239 | 8287 | 12288 | 65279 => true
  | _ => false
  end%N.

Fixpoint trim_start (s : jsstring) : jsstring :=
  match s with
  | c :: s' => if is_white_space c then trim_start s' else s
  | [] => []
  end.

Definition trim (s : jsstring) : jsstring :=
  rev (trim_start (rev (trim_start s))).

(** [s.split(sep)] for a separator of one code unit. *)
Fixpoint split (sep : N) (s : jsstring) : list jsstring :=
  match s with
  | [] => [[]]
  | c :: s' =>
      if N.eqb c sep then [] :: split sep s'
      else match split sep s' with
           | piece :: pieces => (c :: piece) :: pieces
           | [] => [[c]]
           end
  end.

Definition newline : N := 10%N.

(** [getJobUrls()] *)
Definition getJobUrls (a : app) : list jsstring :=
  filter (fun url => Nat.ltb 0 (List.length url))
         (map trim (split newline (job_urls a))).

Definition scrape_url : jsstring := apiBase ++ lit "/scrape".

(** [startScraping()] up to its [await]. *)
Definition startScraping (a : app) : app :=
  let urls := getJobUrls a in
  if Nat.eqb (List.length urls) 0 then
    showNotification (lit "Please enter at least one job URL") warning a
  else
    with_awaiting_scrape (awaiting_scrape a ++ [urls])
      (apiCall_request (Post scrape_url urls) a).

(** [startScraping()] after its [await]; the body of the response is
    [response.session_id]. *)
Definition startScraping_resume (urls : list jsstring)
    (o : fetch_outcome (option jsstring)) : app -> app :=
  try_catch
    (session_id <- apiCall_settle o ;;
     exec (with_session session_id) ;;;
     exec showProgressSection ;;;
     exec monitorScrapingProgress ;;;
     exec (showNotification
             (lit "Started scraping " ++ decimal (Z.of_nat (List.length urls))
                ++ lit " job postings") success))
    (fun _ a => showNotification (lit "Failed to start scraping") error a).

(** ** The event loop *)

(** What the environment can do between two runs of application code. *)
Inductive event :=
| TimerFires                                             (* the oldest pending timer expires *)
| StatusSettles (o : fetch_outcome (option ProgressStatus))  (* a status fetch comes back *)
| JobsSettles (o : fetch_outcome (list Job))             (* a job-list fetch comes back *)
| ScrapeSettles (o : fetch_outcome (option jsstring)).   (* a POST /scrape comes back *)

Definition run_callback (cb : callback) : app -> app :=
  match cb with
  | CheckProgress => checkProgress_request
  end.

(** One turn of the event loop. An event that nothing waits for does nothing. *)
Definition step (ev : event) (a : app) : app :=
  match ev with
  | TimerFires =>
      match timers a with
      | [] => a
      | (_, cb) :: rest => run_callback cb (with_timers rest a)
      end
  | StatusSettles o =>
      match awaiting_status a with
      | O => a
      | S n => checkProgress_resume o (with_awaiting_status n a)
      end
  | JobsSettles o =>
      match awaiting_jobs a with
      | O => a
      | S n => loadJobs_resume o (with_awaiting_jobs n a)
      end
  | ScrapeSettles o =>
      match awaiting_scrape a with
      | [] => a
      | urls :: rest => startScraping_resume urls o (with_awaiting_scrape rest a)
      end
  end.

Definition run (evs : list event) (a : app) : app :=
  fold_left (fun a ev => step ev a) evs a.

(** The events of a poll chain whose fetches come back with [os]: each
    answer, then the timer it may have set. *)
Definition chain_events (os : list (fetch_outcome (option ProgressStatus))) : list event :=
  flat_map (fun o => [StatusSettles o; TimerFires]) os.

(** ** Observations *)

Fixpoint starts_with (p s : jsstring) : bool :=
  match p, s with
  | [], _ => true
  | c :: p', d :: s' => N.eqb c d && starts_with p' s'
  | _ :: _, [] => false
  end.

Definition is_status_poll (r : request) : bool :=
  match r with
  | Get url => starts_with (apiBase ++ lit "/scrape/status/") url
  | Post _ _ => false
  end.

(** The number of polls issued so far. *)
Definition status_polls (a : app) : nat :=
  List.length (filter is_status_poll (requests a)).

(** The notifications shown between state [a] and a later state [a']. *)
Definition emitted (a a' : app) : list (jsstring * ntype) :=
  skipn (List.length (notifications a)) (notifications a').

(** What [apiCall] throws for an outcome, if it throws. *)
Definition failure_of {A} (o : fetch_outcome A) : option js_error :=
  match o with
  | Rejected e => Some e
  | Responded http_status json =>
      if negb (response_ok http_status) then Some (http_error http_status)
      else match json with
           | inl e => Some e
           | inr _ => None
           end
  end.

(** What [apiCall] returns for an outcome, if it returns. *)
Definition fetched {A} (o : fetch_outcome A) : option A :=
  match o with
  | Responded http_status (inr v) =>
      if response_ok http_status then Some v else None
  | _ => None
  end.

(** The poll fetched a status object whose [status] field is ["running"]. *)
Definition observes_running (o : fetch_outcome (option ProgressStatus)) : bool :=
  match fetched o with
  | Some (Some s) => jsstring_eqb (status s) (lit "running")
  | _ => false
  end.

(** No poll chain is in flight and none is about to start. *)
Definition no_chain (a : app) : Prop :=
  awaiting_status a = 0%nat /\ timers a = [] /\ awaiting_scrape a = [].

(** ** The job search *)

(** [s.includes(q)]: [q] occurs in [s] as a contiguous run of code units. *)
Fixpoint includes (s q : jsstring) : bool :=
  starts_with q s ||
  match s with
  | [] => false
  | _ :: s' => includes s' q
  end.

(** The [TypeError] of calling a method on [null]. *)
Definition null_method_error : js_error :=
  {| message := lit "Cannot read properties of null (reading 'toLowerCase')" |}.

(** [jobs.filter(f)] for a callback that can throw. *)
Fixpoint filter_throwing (f : Job -> bool + js_error) (jobs : list Job)
  : list Job + js_error :=
  match jobs with
  | [] => inl []
  | job :: rest =>
      match f job with
      | inr e => inr e
      | inl keep =>
          match filter_throwing f rest with
          | inr e => inr e
          | inl kept => inl (if keep then job :: kept else kept)
          end
      end
  end.

Section Search.

(** [String.prototype.toLowerCase], the Unicode lower-casing of the host. *)
Variable toLowerCase : jsstring -> jsstring.

(** The callback of [searchJobs], with the short-circuit evaluation of
    [||] and [&&]. *)
Definition job_matches (query : jsstring) (job : Job) : bool + js_error :=
  match job_title job with
  | None => inr null_method_error
  | Some title =>
      if includes (toLowerCase title) (toLowerCase query) then inl true
      else
        match company_name job with
        | None => inr null_method_error
        | Some company =>
            if includes (toLowerCase company) (toLowerCase query) then inl true
            else
              match location job with
              | None => inl false
              | Some [] => inl false
              | Some (c :: l) =>
                  inl (includes (toLowerCase (c :: l)) (toLowerCase query))
              end
        end
  end.

(** [searchJobs(query)] *)
Definition searchJobs (query : jsstring) : M unit :=
  fun a =>
    match trim query with
    | [] => (inl tt, displayJobs (currentJobs a) a)
    | _ :: _ =>
        match filter_throwing (job_matches query) (currentJobs a) with
        | inl filtered => (inl tt, displayJobs filtered a)
        | inr e => (inr e, a)
        end
    end.

(** [text] contains [query], case-insensitively. *)
Definition contains_ci (text query : jsstring) : bool :=
  includes (toLowerCase text) (toLowerCase query).

(** The job's title, company name or non-null location contains the query,
    case-insensitively. *)
Definition job_contains (query : jsstring) (job : Job) : bool :=
  let field (f : option jsstring) :=
    match f with
    | Some text => contains_ci text query
    | None => false
    end in
  field (job_title job) || field (company_name job) || field (location job).

End Search.

(** ASCII lower-casing, an instance of [toLowerCase] on ASCII strings. *)
Definition ascii_lower (s : jsstring) : jsstring :=
  map (fun c => if (65 <=? c) && (c <=? 90) then c + 32 else c)%N s.

(** ** Sample values *)

Definition sample_app : app :=
  {| currentSession := Some (lit "s1"); currentJobs := []; job_urls := [];
     progress_hidden := false; progress_bar := zero;
     progress_text := (zero, zero); progress_details := (zero, zero);
     jobs_grid := []; empty_state_hidden := false;
     notifications := []; console := [];
     requests := []; awaiting_status := 0; awaiting_jobs := 0;
     awaiting_scrape := []; timers := [] |}.

Definition ok_status (s : ProgressStatus) : fetch_outcome (option ProgressStatus) :=
  Responded 200 (inr (Some s)).

Definition sample_jobs : list Job :=
  [ {| job_id := lit "1"; job_title := Some (lit "Rust Developer");
       company_name := Some (lit "Acme"); location := Some (lit "Berlin") |};
    {| job_id := lit "2"; job_title := Some (lit "Designer");
       company_name := Some (lit "Trusty Co"); location := None |};
    {| job_id := lit "3"; job_title := Some (lit "Analyst");
       company_name := Some (lit "Initech"); location := Some [] |};
    {| job_id := lit "4"; job_title := Some (lit "Cook");
       company_name := Some (lit "Diner"); location := Some (lit "Rustenburg") |} ].

(** A textarea with spaces, a tab and two line breaks. *)
Definition blank_input_app : app :=
  {| currentSession := None; currentJobs := [];
     job_urls := [32; 32; 10; 9; 10; 32]%N;
     progress_hidden := true; progress_bar := zero;
     progress_text := (zero, zero); progress_details := (zero, zero);
     jobs_grid := []; empty_state_hidden := false;
     notifications := []; console := [];
     requests := []; awaiting_status := 0; awaiting_jobs := 0;
     awaiting_scrape := []; timers := [] |}.

(** The sample application right after [monitorScrapingProgress]: its first
    status request is out. *)
Definition polling_app : app := monitorScrapingProgress sample_app.

Definition running_status : ProgressStatus := mkStatus "running" 3 1 1 0.
Definition running_status' : ProgressStatus := mkStatus "running" 3 2 2 0.
Definition completed_status : ProgressStatus := mkStatus "completed" 3 3 3 0.
Definition failed_status : ProgressStatus := mkStatus "failed" 3 2 2 1.

(** A fetch that the transport rejects. *)
Definition network_down : fetch_outcome (option ProgressStatus) :=
  Rejected {| message := lit "Failed to fetch" |}.

(** The integers [lo], [lo + 1], ..., [lo + n - 1]. *)
Definition Zrange (lo : Z) (n : nat) : list Z :=
  map (fun i => lo + Z.of_nat i) (seq 0 n).

(** A snapshot with 7 of 100 URLs done. *)
Definition seven_of_hundred : ProgressStatus := mkStatus "running" 100 7 7 0.

(** ** More of the page *)

(** The poll chains alive: polls at their await and polls scheduled. *)
Definition chains (a : app) : nat :=
  (awaiting_status a + List.length (timers a))%nat.

(** The answers to [POST /scrape] among some events. *)
Definition scrape_answers (evs : list event) : nat :=
  List.length (filter (fun ev => match ev with ScrapeSettles _ => true | _ => false end) evs).

(** The empty-state element is hidden exactly when the grid shows a card. *)
Definition display_consistent (a : app) : Prop :=
  empty_state_hidden a = negb (Nat.eqb (List.length (jobs_grid a)) 0).

(** A string starts and ends with a code unit that [trim] would keep. *)
Definition ends_clean (u : jsstring) : Prop :=
  match u with
  | [] => False
  | c :: _ => is_white_space c = false /\ is_white_space (last u c) = false
  end.

Section SearchFailure.

(** [String.prototype.toLowerCase], as in [searchJobs]. *)
Variable toLowerCase : jsstring -> jsstring.

(** The callback of [searchJobs] throws on this job: its title is null, or
    its title does not contain the query and its company name is null. *)
Definition search_breaks (query : jsstring) (job : Job) : bool :=
  match job_title job with
  | None => true
  | Some title =>
      if contains_ci toLowerCase title query then false
      else match company_name job with
           | None => true
           | Some _ => false
           end
  end.

End SearchFailure.

(** ** formatSalary *)

(** The salary fields of a job posting; [None] is [null]. *)
Record Salary := {
  salary_text : option jsstring;
  salary_min : option number;
  salary_max : option number;
  salary_currency : option jsstring
}.

(** JavaScript truthiness of a number field: [null], both zeros and NaN are
    falsy. *)
Definition number_truthy (x : option number) : bool :=
  match x with
  | None => false
  | Some (S754_zero _) => false
  | Some S754_nan => false
  | Some _ => true
  end.

Section FormatSalary.

(** [Number.prototype.toLocaleString], which depends on the host's locale. *)
Variable toLocaleString : number -> jsstring.

(** [job.salary_currency || 'USD'], then ['$'] for ['USD']. *)
Definition currency_symbol (job : Salary) : jsstring :=
  let currency :=
    match salary_currency job with
    | Some (c :: code) => c :: code
    | _ => lit "USD"
    end in
  if jsstring_eqb currency (lit "USD") then lit "$" else currency.

(** The number in a field that was found truthy. *)
Definition number_of (x : option number) : number :=
  match x with
  | Some n => n
  | None => S754_nan
  end.

(** [formatSalary(job)]; [None] is the [null] it returns. *)
Definition formatSalary (job : Salary) : option jsstring :=
  if truthy (salary_text job) then salary_text job
  else if number_truthy (salary_min job) && number_truthy (salary_max job) then
    Some (currency_symbol job ++ toLocaleString (number_of (salary_min job))
            ++ lit " - "
            ++ currency_symbol job ++ toLocaleString (number_of (salary_max job)))
  else if number_truthy (salary_min job) then
    Some (currency_symbol job ++ toLocaleString (number_of (salary_min job))
            ++ lit "+")
  else None.

End FormatSalary.

(** ** getUserId *)

(** [getUserId()]: [stored] is what [localStorage] holds under
    ['job_scraper_user_id'] ([None] when the key is absent), [suffix] is
    [Math.random().toString(36).substr(2, 9)]. Returns the id and the new
    content of the key. *)
Definition getUserId (suffix : jsstring) (stored : option jsstring)
  : jsstring * option jsstring :=
  match stored with
  | Some (c :: id) => (c :: id, stored)
  | _ => let userId := lit "user_" ++ suffix in (userId, Some userId)
  end.

(** ** The job modal *)

Module JobModal.

(** The callbacks that [displayJobModal] and [closeJobModal] hand to
    [setTimeout]. *)
Inductive modal_timer :=
| RemoveEnter    (* after 10 ms: remove class modal-enter *)
| FinishLeave.   (* after 250 ms: add class hidden, remove class modal-leave *)

(** The classes of [#job-modal] that the two methods touch, and their timers
    that have not fired yet. *)
Record modal := {
  hidden : bool;
  modal_enter : bool;
  modal_leave : bool;
  pending : list modal_timer
}.

(** The class changes and the timer of [displayJobModal(jobData)]. *)
Definition displayJobModal (m : modal) : modal :=
  {| hidden := false; modal_enter := true; modal_leave := modal_leave m;
     pending := pending m ++ [RemoveEnter] |}.

(** [closeJobModal()] *)
Definition closeJobModal (m : modal) : modal :=
  {| hidden := hidden m; modal_enter := modal_enter m; modal_leave := true;
     pending := pending m ++ [FinishLeave] |}.

(** A timer callback runs. *)
Definition fire (m : modal) (t : modal_timer) : modal :=
  match t with
  | RemoveEnter =>
      {| hidden := hidden m; modal_enter := false; modal_leave := modal_leave m;
         pending := pending m |}
  | FinishLeave =>
      {| hidden := true; modal_enter := modal_enter m; modal_leave := false;
         pending := pending m |}
  end.

(** The timers [ts] run, in that order. *)
Definition fire_all (ts : list modal_timer) (m : modal) : modal :=
  fold_left fire ts m.

End JobModal.

(** ** The loading overlay and demoScrape *)

(** The application with the loading overlays of the document: the texts of
    the elements with id [loading-overlay], in document order. *)
Record page := {
  page_app : app;
  overlays : list jsstring
}.

(** [showLoading(message)]: the first overlay, if any, is removed; a new one
    is appended. *)
Definition showLoading (msg : jsstring) (p : page) : page :=
  {| page_app := page_app p; overlays := tl (overlays p) ++ [msg] |}.

(** [hideLoading()]: the first overlay, if any, is removed. *)
Definition hideLoading (p : page) : page :=
  {| page_app := page_app p; overlays := tl (overlays p) |}.

(** An element of [response.results]. *)
Record DemoResult := { job_posting : Job }.

(** The body of [POST /demo/scrape]. *)
Record DemoResponse := {
  results : list DemoResult;
  count : Z
}.

(** [displayDemoResults(results)] *)
Definition displayDemoResults (rs : list DemoResult) : app -> app :=
  displayJobs (map job_posting rs).

Definition demo_url : jsstring := apiBase ++ lit "/demo/scrape".

(** [demoScrape()] up to its [await]. *)
Definition demoScrape (p : page) : page :=
  let urls := getJobUrls (page_app p) in
  if Nat.eqb (List.length urls) 0 then
    {| page_app := showNotification (lit "Please enter at least one job URL")
                     warning (page_app p);
       overlays := overlays p |}
  else
    let p1 := showLoading (lit "Scraping jobs...") p in
    {| page_app := apiCall_request (Post demo_url urls) (page_app p1);
       overlays := overlays p1 |}.

(** [demoScrape()] after its [await]. *)
Definition demoScrape_resume (o : fetch_outcome DemoResponse) (p : page) : page :=
  match apiCall_settle o (page_app p) with
  | (inl response, a) =>
      let p1 := hideLoading {| page_app := a; overlays := overlays p |} in
      {| page_app :=
           showNotification
             (lit "Successfully scraped " ++ decimal (count response) ++ lit " jobs")
             success
             (displayDemoResults (results response) (page_app p1));
         overlays := overlays p1 |}
  | (inr _, a) =>
      let p1 := hideLoading {| page_app := a; overlays := overlays p |} in
      {| page_app := showNotification (lit "Demo scraping failed") error (page_app p1);
         overlays := overlays p1 |}
  end.

(** The number of leading answers that observe "running". *)
Fixpoint running_prefix (os : list (fetch_outcome (option ProgressStatus))) : nat :=
  match os with
  | [] => 0
  | o :: os' => if observes_running o then S (running_prefix os') else 0
  end.

(** The text of the notification that [startScraping] shows once the
    scrape is accepted. *)
Definition started_text (urls : list jsstring) : jsstring :=
  lit "Started scraping " ++ decimal (Z.of_nat (List.length urls))
    ++ lit " job postings".

(** ** More sample values *)

(** A textarea with two URLs, blank lines and stray spaces. *)
Definition two_urls_app : app :=
  with_session None
    {| currentSession := None; currentJobs := sample_jobs;
       job_urls := lit "  https://a.example/1 " ++ [10; 10; 9]%N
                     ++ lit "https://b.example/2" ++ [10]%N;
       progress_hidden := true; progress_bar := zero;
       progress_text := (zero, zero); progress_details := (zero, zero);
       jobs_grid := sample_jobs; empty_state_hidden := true;
       notifications := []; console := [];
       requests := []; awaiting_status := 0; awaiting_jobs := 0;
       awaiting_scrape := []; timers := [] |}.

(** The answer to a [POST /scrape] that names session ["s2"]. *)
Definition session_s2 : fetch_outcome (option jsstring) :=
  Responded 200 (inr (Some (lit "s2"))).

(** The sample application between two polls of its chain, with a new
    [POST /scrape] on its way. *)
Definition superseded_app : app :=
  with_awaiting_scrape [[lit "https://b.example/2"]]
    (step (StatusSettles (ok_status running_status)) polling_app).

(** * Properties *)

(** ** Strings *)

Lemma jsstring_eqb_eq (s t : jsstring) : jsstring_eqb s t = true <-> s = t.
Proof.
  revert t; induction s as [|c s IH]; intros [|d t]; simpl; split;
    try congruence; try reflexivity.
  - intros H. apply andb_true_iff in H as [Hc Hs].
    apply N.eqb_eq in Hc. apply IH in Hs. congruence.
  - intros H. injection H as -> ->.
    rewrite N.eqb_refl. simpl. apply IH. reflexivity.
Qed.

Lemma jsstring_eqb_neq (s t : jsstring) : s <> t -> jsstring_eqb s t = false.
Proof.
  intros H. destruct (jsstring_eqb s t) eqn:E; [|reflexivity].
  apply jsstring_eqb_eq in E. contradiction.
Qed.

Lemma starts_with_app (p s : jsstring) : starts_with p (p ++ s) = true.
Proof.
  induction p as [|c p IH]; simpl; [reflexivity|].
  rewrite N.eqb_refl. exact IH.
Qed.

(** ** The percentage of updateProgress *)

Lemma eqb_zero_inv (x : number) :
  Number.eqb x zero = true -> exists sign, x = S754_zero sign.
Proof.
  destruct x as [sg|sg| |sg m e]; simpl; intros H; try discriminate.
  - exists sg. reflexivity.
  - destruct sg; discriminate.
  - destruct sg; discriminate.
Qed.

(** Every division that the percentage carries out has a divisor above 0. *)
Lemma percentage_divisions_guarded (s : ProgressStatus) (x y : number) :
  In (OpDiv x y) (snd (percentage_ops s)) -> ltb zero y = true.
Proof.
  unfold percentage_ops.
  destruct (ltb zero (total_urls s)) eqn:E; simpl.
  - intros [H|[H|[]]]; [|discriminate]. injection H as _ <-. exact E.
  - intros [].
Qed.

(** C5: for a snapshot with total_urls == 0 (either zero of binary64) the
    percentage is 0 and computing it carries out no arithmetic operation, so
    no division; updateProgress returns normally and sets the bar to 0. *)
Theorem percentage_zero_total (s : ProgressStatus) (a : app) :
  Number.eqb (total_urls s) zero = true ->
  percentage s = zero /\
  snd (percentage_ops s) = [] /\
  updateProgress (Some s) a = (inl tt, updateProgress_dom s a) /\
  progress_bar (updateProgress_dom s a) = zero.
Proof.
  intros H. apply eqb_zero_inv in H as [sg H].
  assert (E : percentage_ops s = (zero, [])).
  { unfold percentage_ops. rewrite H. reflexivity. }
  assert (P : percentage s = zero) by (unfold percentage; rewrite E; reflexivity).
  repeat split.
  - exact P.
  - rewrite E. reflexivity.
  - unfold updateProgress_dom. simpl. exact P.
Qed.

Lemma percentage_zero_total_witness :
  percentage (mkStatus "running" 0 0 0 0) = zero /\
  snd (percentage_ops (mkStatus "running" 0 0 0 0)) = [] /\
  updateProgress (Some (mkStatus "running" 0 0 0 0)) sample_app
    = (inl tt, updateProgress_dom (mkStatus "running" 0 0 0 0) sample_app) /\
  progress_bar (updateProgress_dom (mkStatus "running" 0 0 0 0) sample_app) = zero.
Proof.
  apply (percentage_zero_total (mkStatus "running" 0 0 0 0) sample_app).
  reflexivity.
Defined.

(** C6, as stated, fails: with completed = 7 and total_urls = 100 the guards
    hold, 100 * 7 / 100 is exactly 7 (as a rational and as the binary64
    expression), and the percentage that updateProgress computes is the next
    binary64 value above 7 (printed 7.000000000000001). *)
Lemma percentage_not_exact :
  ltb zero (total_urls seven_of_hundred) = true /\
  leb (completed seven_of_hundred) (total_urls seven_of_hundred) = true /\
  div (mul hundred (completed seven_of_hundred)) (total_urls seven_of_hundred)
    = of_Z 7 /\
  percentage seven_of_hundred <> of_Z 7 /\
  ~ is_ratio (percentage seven_of_hundred) (100 * 7) 100.
Proof.
  repeat split; try (vm_compute; reflexivity).
  - vm_compute. discriminate.
  - vm_compute. discriminate.
Qed.

(** C6, amended: for total_urls > 0 the percentage is the binary64 product
    (completed / total_urls) * 100, the quotient being rounded before it is
    multiplied; that is what the progress bar is set to. *)
Theorem percentage_positive_total (s : ProgressStatus) (a : app) :
  ltb zero (total_urls s) = true ->
  percentage s = mul (div (completed s) (total_urls s)) hundred /\
  progress_bar (updateProgress_dom s a) = mul (div (completed s) (total_urls s)) hundred.
Proof.
  intros H. unfold updateProgress_dom, percentage, percentage_ops.
  rewrite H. split; reflexivity.
Qed.

Lemma percentage_positive_total_witness :
  percentage seven_of_hundred = mul (div (of_Z 7) (of_Z 100)) hundred /\
  progress_bar (updateProgress_dom seven_of_hundred sample_app)
    = mul (div (of_Z 7) (of_Z 100)) hundred.
Proof.
  apply (percentage_positive_total seven_of_hundred sample_app).
  vm_compute. reflexivity.
Defined.

(** ** The guard of monitorScrapingProgress *)

(** C8: with no stored session identifier (null or the empty string)
    monitorScrapingProgress returns at once: the state is the one it was
    called in, so no fetch is issued, no poll is awaited or scheduled, and
    nothing of the UI changes. *)
Theorem monitor_without_session_is_noop (a : app) :
  currentSession a = None \/ currentSession a = Some [] ->
  monitorScrapingProgress a = a /\
  requests (monitorScrapingProgress a) = requests a /\
  awaiting_status (monitorScrapingProgress a) = awaiting_status a /\
  timers (monitorScrapingProgress a) = timers a.
Proof.
  intros H.
  assert (E : monitorScrapingProgress a = a).
  { unfold monitorScrapingProgress. destruct H as [-> | ->]; reflexivity. }
  rewrite E. repeat split; reflexivity.
Qed.

Lemma monitor_without_session_is_noop_witness :
  monitorScrapingProgress (with_session None sample_app) = with_session None sample_app /\
  requests (monitorScrapingProgress (with_session None sample_app))
    = requests (with_session None sample_app) /\
  awaiting_status (monitorScrapingProgress (with_session None sample_app))
    = awaiting_status (with_session None sample_app) /\
  timers (monitorScrapingProgress (with_session None sample_app))
    = timers (with_session None sample_app).
Proof.
  apply (monitor_without_session_is_noop (with_session None sample_app)).
  left. reflexivity.
Defined.

(** ** The URL input *)

Lemma trim_start_blank (s : jsstring) :
  forallb is_white_space s = true -> trim_start s = [].
Proof.
  induction s as [|c s IH]; simpl; [reflexivity|].
  intros H. apply andb_true_iff in H as [Hc Hs].
  rewrite Hc. apply IH, Hs.
Qed.

Lemma trim_blank (s : jsstring) :
  forallb is_white_space s = true -> trim s = [].
Proof.
  intros H. unfold trim. rewrite (trim_start_blank s H). reflexivity.
Qed.

Lemma split_blank (sep : N) (s : jsstring) :
  forallb is_white_space s = true ->
  Forall (fun piece => forallb is_white_space piece = true) (split sep s).
Proof.
  induction s as [|c s IH]; simpl; intros H.
  - constructor; [reflexivity | constructor].
  - apply andb_true_iff in H as [Hc Hs]. specialize (IH Hs).
    destruct (N.eqb c sep).
    + constructor; [reflexivity | exact IH].
    + destruct (split sep s) as [|piece pieces].
      * constructor; [simpl; rewrite Hc; reflexivity | constructor].
      * inversion IH as [|? ? Hp Hps]; subst.
        constructor; [simpl; rewrite Hc; exact Hp | exact Hps].
Qed.

Lemma blank_lines_dropped (pieces : list jsstring) :
  Forall (fun piece => forallb is_white_space piece = true) pieces ->
  filter (fun url => Nat.ltb 0 (List.length url)) (map trim pieces) = [].
Proof.
  induction 1 as [|piece pieces Hp _ IH]; simpl; [reflexivity|].
  rewrite (trim_blank piece Hp). simpl. exact IH.
Qed.

(** C9: when the textarea holds only white space and line breaks, getJobUrls
    returns the empty list and startScraping does nothing but show the
    warning: no request, no session stored, nothing awaited or scheduled. *)
Theorem startScraping_blank_input (a : app) :
  forallb is_white_space (job_urls a) = true ->
  getJobUrls a = [] /\
  startScraping a
    = showNotification (lit "Please enter at least one job URL") warning a /\
  requests (startScraping a) = requests a /\
  currentSession (startScraping a) = currentSession a /\
  awaiting_scrape (startScraping a) = awaiting_scrape a /\
  awaiting_status (startScraping a) = awaiting_status a /\
  timers (startScraping a) = timers a /\
  notifications (startScraping a)
    = notifications a ++ [(lit "Please enter at least one job URL", warning)].
Proof.
  intros H.
  assert (U : getJobUrls a = []).
  { unfold getJobUrls. apply blank_lines_dropped, split_blank, H. }
  assert (E : startScraping a
              = showNotification (lit "Please enter at least one job URL") warning a).
  { unfold startScraping. rewrite U. reflexivity. }
  rewrite E. repeat split; try reflexivity. exact U.
Qed.

Lemma startScraping_blank_input_witness :
  getJobUrls blank_input_app = [] /\
  notifications (startScraping blank_input_app)
    = [(lit "Please enter at least one job URL", warning)] /\
  requests (startScraping blank_input_app) = [].
Proof.
  assert (B : forallb is_white_space (job_urls blank_input_app) = true)
    by reflexivity.
  destruct (startScraping_blank_input blank_input_app B)
    as (U & _ & R & _ & _ & _ & _ & Nf).
  split; [exact U | split; [exact Nf | exact R]].
Defined.

(** ** One poll *)

Lemma fetched_inv {A} (o : fetch_outcome A) (v : A) :
  fetched o = Some v ->
  exists code, o = Responded code (inr v) /\ response_ok code = true.
Proof.
  destruct o as [e | code [e | w]]; simpl; try discriminate.
  destruct (response_ok code) eqn:E; [|discriminate].
  intros H. injection H as ->. exists code. split; [reflexivity | exact E].
Qed.

(** An outcome either makes [apiCall] return or makes it throw. *)
Lemma fetched_xor_failure {A} (o : fetch_outcome A) :
  (exists v, fetched o = Some v /\ failure_of o = None) \/
  (exists e, failure_of o = Some e /\ fetched o = None).
Proof.
  destruct o as [e | code [e | w]]; simpl.
  - right. exists e. split; reflexivity.
  - destruct (response_ok code); simpl; right; eexists; split; reflexivity.
  - destruct (response_ok code); simpl.
    + left. exists w. split; reflexivity.
    + right. eexists. split; reflexivity.
Qed.

(** The three ways a fetch fails: the transport rejects, the HTTP status is
    not a success, the body does not decode. *)
Lemma failure_of_categories {A} (e : js_error) (code : Z) (body : js_error + A) :
  failure_of (@Rejected A e) = Some e /\
  (response_ok code = false ->
   failure_of (Responded code body) = Some (http_error code)) /\
  (response_ok code = true ->
   failure_of (@Responded A code (inl e)) = Some e).
Proof.
  repeat split; simpl; intros ->; reflexivity.
Qed.

Lemma apiCall_settle_failure {A} (o : fetch_outcome A) (e : js_error) (a : app) :
  failure_of o = Some e ->
  apiCall_settle o a
  = (inr e, showNotification (lit "API call failed: " ++ message e) error
              (console_error (lit "API call failed:") a)).
Proof.
  destruct o as [e' | code [e' | w]]; simpl.
  - intros H. injection H as ->. reflexivity.
  - destruct (response_ok code); simpl; intros H; injection H as <-; reflexivity.
  - destruct (response_ok code); simpl; intros H; [discriminate|].
    injection H as <-. reflexivity.
Qed.

Lemma apiCall_settle_fetched {A} (o : fetch_outcome A) (v : A) (a : app) :
  fetched o = Some v -> apiCall_settle o a = (inl v, a).
Proof.
  intros H. apply fetched_inv in H as (code & -> & Hok).
  simpl. rewrite Hok. reflexivity.
Qed.

(** A poll that fetched a status object: the DOM is updated, then the branch
    on [status.status] runs. *)
Lemma checkProgress_resume_fetched o (s : ProgressStatus) (a : app) :
  fetched o = Some (Some s) ->
  checkProgress_resume o a = checkProgress_branch s (updateProgress_dom s a).
Proof.
  intros H. unfold checkProgress_resume, try_catch, bind.
  rewrite (apiCall_settle_fetched o _ a H). reflexivity.
Qed.

(** A poll whose body decoded to [null]: [updateProgress] throws. *)
Lemma checkProgress_resume_null o (a : app) :
  fetched o = Some None ->
  checkProgress_resume o a
  = hideProgressSection (console_error (lit "Failed to check progress:") a).
Proof.
  intros H. unfold checkProgress_resume, try_catch, bind.
  rewrite (apiCall_settle_fetched o _ a H). reflexivity.
Qed.

(** A poll whose fetch failed: [apiCall] reports, [checkProgress] hides. *)
Lemma checkProgress_resume_failure o (e : js_error) (a : app) :
  failure_of o = Some e ->
  checkProgress_resume o a
  = hideProgressSection
      (console_error (lit "Failed to check progress:")
         (showNotification (lit "API call failed: " ++ message e) error
            (console_error (lit "API call failed:") a))).
Proof.
  intros H. unfold checkProgress_resume, try_catch, bind.
  rewrite (apiCall_settle_failure o e a H). reflexivity.
Qed.

Lemma observes_running_spec o :
  observes_running o = true <->
  exists s, fetched o = Some (Some s) /\ status s = lit "running".
Proof.
  unfold observes_running. split.
  - destruct (fetched o) as [[s|]|]; try discriminate.
    intros H. exists s. split; [reflexivity | apply jsstring_eqb_eq, H].
  - intros (s & -> & H). apply jsstring_eqb_eq, H.
Qed.

(** What one poll does to the timers: it appends one, 2000 ms ahead, exactly
    when it observed "running". *)
Lemma checkProgress_resume_timers o (a : app) :
  timers (checkProgress_resume o a)
  = timers a ++ (if observes_running o then [(2000, CheckProgress)] else []).
Proof.
  unfold observes_running.
  destruct (fetched_xor_failure o) as [(v & Hv & _) | (e & He & Hn)].
  - rewrite Hv. destruct v as [s|].
    + rewrite (checkProgress_resume_fetched o s a Hv).
      unfold checkProgress_branch.
      destruct (jsstring_eqb (status s) (lit "running")); simpl; [reflexivity|].
      destruct (jsstring_eqb (status s) (lit "completed")); simpl;
        rewrite app_nil_r; reflexivity.
    + rewrite (checkProgress_resume_null o a Hv). simpl.
      rewrite app_nil_r. reflexivity.
  - rewrite Hn, (checkProgress_resume_failure o e a He). simpl.
    rewrite app_nil_r. reflexivity.
Qed.

(** A poll itself issues no status request and awaits no further fetch of
    the status. *)
Lemma checkProgress_resume_polls o (a : app) :
  status_polls (checkProgress_resume o a) = status_polls a /\
  awaiting_status (checkProgress_resume o a) = awaiting_status a /\
  awaiting_scrape (checkProgress_resume o a) = awaiting_scrape a.
Proof.
  destruct (fetched_xor_failure o) as [(v & Hv & _) | (e & He & Hn)].
  - destruct v as [s|].
    + rewrite (checkProgress_resume_fetched o s a Hv).
      unfold checkProgress_branch, status_polls.
      destruct (jsstring_eqb (status s) (lit "running")); simpl;
        [repeat split; reflexivity|].
      destruct (jsstring_eqb (status s) (lit "completed")); simpl;
        [|repeat split; reflexivity].
      rewrite filter_app. simpl. rewrite app_nil_r. repeat split; reflexivity.
    + rewrite (checkProgress_resume_null o a Hv). repeat split; reflexivity.
  - rewrite (checkProgress_resume_failure o e a He). repeat split; reflexivity.
Qed.

Lemma checkProgress_request_polls (a : app) :
  status_polls (checkProgress_request a) = S (status_polls a).
Proof.
  unfold status_polls, checkProgress_request. simpl.
  rewrite filter_app, length_app. simpl. lia.
Qed.

(** ** The event loop between chains *)

Lemma loadJobs_resume_frame o (a : app) :
  requests (loadJobs_resume o a) = requests a /\
  awaiting_status (loadJobs_resume o a) = awaiting_status a /\
  awaiting_scrape (loadJobs_resume o a) = awaiting_scrape a /\
  timers (loadJobs_resume o a) = timers a /\
  progress_hidden (loadJobs_resume o a) = progress_hidden a.
Proof.
  unfold loadJobs_resume, try_catch, bind.
  destruct (fetched_xor_failure o) as [(v & Hv & _) | (e & He & _)].
  - rewrite (apiCall_settle_fetched o v a Hv). unfold exec, displayJobs. simpl.
    destruct (Nat.eqb (List.length v) 0); repeat split; reflexivity.
  - rewrite (apiCall_settle_failure o e a He). repeat split; reflexivity.
Qed.

(** With no chain in flight, no event starts a poll. *)
Lemma step_no_chain (ev : event) (a : app) :
  no_chain a ->
  no_chain (step ev a) /\ status_polls (step ev a) = status_polls a.
Proof.
  intros (Hs & Ht & Hc). unfold no_chain.
  destruct ev as [ | o | o | o]; simpl.
  - rewrite Ht. repeat split; assumption.
  - rewrite Hs. repeat split; assumption.
  - destruct (awaiting_jobs a) as [|n]; [repeat split; assumption|].
    destruct (loadJobs_resume_frame o (with_awaiting_jobs n a))
      as (Hr & H1 & H2 & H3 & _).
    unfold status_polls. rewrite Hr, H1, H2, H3. repeat split; assumption.
  - rewrite Hc. repeat split; assumption.
Qed.

Lemma run_no_chain (evs : list event) (a : app) :
  no_chain a ->
  no_chain (run evs a) /\ status_polls (run evs a) = status_polls a.
Proof.
  revert a. induction evs as [|ev evs IH]; intros a H; simpl.
  - split; [exact H | reflexivity].
  - destruct (step_no_chain ev a H) as [H1 H2].
    destruct (IH (step ev a) H1) as [H3 H4].
    split; [exact H3 | congruence].
Qed.

(** ** Poll chains *)

Local Arguments percentage : simpl never.
Local Arguments checkProgress_resume : simpl never.
Local Arguments loadJobs_resume : simpl never.

Lemma monitor_with_session (a : app) :
  truthy (currentSession a) = true ->
  monitorScrapingProgress a = checkProgress_request a.
Proof.
  intros H. unfold monitorScrapingProgress. rewrite H. reflexivity.
Qed.

(** A poll that does not observe "running" leaves no chain behind. *)
Lemma poll_ends_chain o (a : app) :
  observes_running o = false ->
  awaiting_status a = 1%nat -> timers a = [] -> awaiting_scrape a = [] ->
  no_chain (step (StatusSettles o) a) /\
  status_polls (step (StatusSettles o) a) = status_polls a.
Proof.
  intros Hr Hs Ht Hc. simpl. rewrite Hs.
  destruct (checkProgress_resume_polls o (with_awaiting_status 0 a))
    as (Hp & Hw & Hsc).
  pose proof (checkProgress_resume_timers o (with_awaiting_status 0 a)) as Htm.
  rewrite Hr in Htm. simpl in Htm. rewrite Ht in Htm.
  split; [|exact Hp].
  unfold no_chain. rewrite Hw, Htm, Hsc. simpl. repeat split. exact Hc.
Qed.

(** A poll that observes "running", followed by the timer it set: the DOM
    shows the snapshot and the next status request is out. *)
Lemma running_poll_round o (s : ProgressStatus) (a : app) :
  fetched o = Some (Some s) -> status s = lit "running" ->
  awaiting_status a = 1%nat -> timers a = [] ->
  step TimerFires (step (StatusSettles o) a)
  = checkProgress_request (updateProgress_dom s (with_awaiting_status 0 a)).
Proof.
  intros Hf Hst Hs Ht. simpl. rewrite Hs.
  rewrite (checkProgress_resume_fetched o s _ Hf).
  unfold checkProgress_branch. rewrite Hst. simpl. rewrite Ht. simpl.
  destruct a; simpl in Ht; subst. reflexivity.
Qed.

(** C1: a poll appends a timer for checkProgress, 2000 ms ahead, exactly when
    it fetched a status object whose status is "running", and otherwise
    leaves the timers as they are; when that timer fires one more poll goes
    out; and after a poll of the only chain in flight that observed anything
    else, no sequence of timer and fetch events issues another poll. *)
Theorem poll_reschedules_iff_running o (a : app) :
  timers (checkProgress_resume o a)
    = timers a ++ (if observes_running o then [(2000, CheckProgress)] else []) /\
  (observes_running o = true -> timers a = [] ->
   status_polls (step TimerFires (checkProgress_resume o a)) = S (status_polls a)) /\
  (observes_running o = false ->
   awaiting_status a = 1%nat -> timers a = [] -> awaiting_scrape a = [] ->
   forall evs : list event,
     status_polls (run evs (step (StatusSettles o) a)) = status_polls a).
Proof.
  pose proof (checkProgress_resume_timers o a) as Htm.
  split; [exact Htm|]. split.
  - intros Hr Ht. rewrite Hr, Ht in Htm. simpl in *. rewrite Htm. simpl.
    rewrite checkProgress_request_polls. f_equal.
    apply (checkProgress_resume_polls o a).
  - intros Hr Hs Ht Hc evs.
    destruct (poll_ends_chain o a Hr Hs Ht Hc) as [Hn Hp].
    destruct (run_no_chain evs _ Hn) as [_ Hq]. congruence.
Qed.

Lemma poll_reschedules_iff_running_witness :
  timers (checkProgress_resume (ok_status running_status) polling_app)
    = [(2000, CheckProgress)] /\
  status_polls (step TimerFires
                  (checkProgress_resume (ok_status running_status) polling_app)) = 2%nat /\
  timers (checkProgress_resume (ok_status failed_status) polling_app) = [] /\
  status_polls
    (run [TimerFires; StatusSettles (ok_status running_status); TimerFires]
         (step (StatusSettles (ok_status failed_status)) polling_app)) = 1%nat.
Proof.
  destruct (poll_reschedules_iff_running (ok_status running_status) polling_app)
    as (T1 & P1 & _).
  destruct (poll_reschedules_iff_running (ok_status failed_status) polling_app)
    as (T2 & _ & P2).
  split; [exact T1|]. split; [apply P1; reflexivity|]. split; [exact T2|].
  apply P2; reflexivity.
Defined.

(** ** Terminal outcomes of a poll *)

Lemma displayJobs_grid (jobs : list Job) (a : app) :
  jobs_grid (displayJobs jobs a) = jobs.
Proof. destruct jobs; reflexivity. Qed.

Lemma run_app (evs evs' : list event) (a : app) :
  run (evs ++ evs') a = run evs' (run evs a).
Proof. apply fold_left_app. Qed.

Lemma emitted_app (a a' : app) (l : list (jsstring * ntype)) :
  notifications a' = notifications a ++ l -> emitted a a' = l.
Proof.
  intros H. unfold emitted. rewrite H. clear H.
  generalize (notifications a) as shown.
  induction shown as [|n shown IH]; simpl; [reflexivity | exact IH].
Qed.

(** A poll that fetched status "completed". *)
Lemma checkProgress_resume_completed o (s : ProgressStatus) (a : app) :
  fetched o = Some (Some s) -> status s = lit "completed" ->
  checkProgress_resume o a
  = showNotification (lit "Scraping completed successfully") success
      (loadJobs_request (hideProgressSection (updateProgress_dom s a))).
Proof.
  intros Hf Hs. rewrite (checkProgress_resume_fetched o s a Hf).
  unfold checkProgress_branch. rewrite Hs. reflexivity.
Qed.

(** A poll that fetched any status other than "running" and "completed". *)
Lemma checkProgress_resume_other o (s : ProgressStatus) (a : app) :
  fetched o = Some (Some s) ->
  status s <> lit "running" -> status s <> lit "completed" ->
  checkProgress_resume o a
  = showNotification (lit "Scraping failed") error
      (hideProgressSection (updateProgress_dom s a)).
Proof.
  intros Hf Hr Hc. rewrite (checkProgress_resume_fetched o s a Hf).
  unfold checkProgress_branch.
  rewrite (jsstring_eqb_neq _ _ Hr), (jsstring_eqb_neq _ _ Hc). reflexivity.
Qed.

(** C2: a poll that fetches status "completed" hides the progress section,
    sends the job-list request of loadJobs and shows the success
    notification, setting no timer. With the status sequence running,
    running, completed, a monitor started on a stored session issues exactly
    three polls, and once the job-list request is answered the stored and
    displayed jobs are the fetched ones and the one notification shown is the
    success notification. *)
Theorem completed_poll_refreshes_and_reports :
  (forall o s a,
     fetched o = Some (Some s) -> status s = lit "completed" ->
     let a' := checkProgress_resume o a in
     progress_hidden a' = true /\
     requests a' = requests a ++ [Get jobs_url] /\
     awaiting_jobs a' = S (awaiting_jobs a) /\
     notifications a'
       = notifications a ++ [(lit "Scraping completed successfully", success)] /\
     timers a' = timers a) /\
  (forall o1 o2 o3 r1 r2 c oj jobs a,
     truthy (currentSession a) = true ->
     awaiting_status a = 0%nat -> timers a = [] -> awaiting_jobs a = 0%nat ->
     fetched o1 = Some (Some r1) -> status r1 = lit "running" ->
     fetched o2 = Some (Some r2) -> status r2 = lit "running" ->
     fetched o3 = Some (Some c) -> status c = lit "completed" ->
     fetched oj = Some jobs ->
     let final := run (chain_events [o1; o2; o3] ++ [JobsSettles oj])
                      (monitorScrapingProgress a) in
     status_polls final = (status_polls a + 3)%nat /\
     requests final
       = requests a ++ [Get (status_url (currentSession a));
                        Get (status_url (currentSession a));
                        Get (status_url (currentSession a));
                        Get jobs_url] /\
     currentJobs final = jobs /\
     jobs_grid final = jobs /\
     notifications final
       = notifications a ++ [(lit "Scraping completed successfully", success)] /\
     progress_hidden final = true /\
     timers final = [] /\ awaiting_status final = 0%nat /\
     awaiting_scrape final = awaiting_scrape a /\
     (awaiting_scrape a = [] ->
      forall evs : list event,
        status_polls (run evs final) = (status_polls a + 3)%nat)).
Proof.
  split.
  - intros o s a Hf Hs a'. subst a'.
    rewrite (checkProgress_resume_completed o s a Hf Hs).
    repeat split; reflexivity.
  - intros o1 o2 o3 r1 r2 c oj jobs a Ht Hw Htm Hj Hf1 Hs1 Hf2 Hs2 Hf3 Hs3 Hfj final.
    cut (status_polls final = (status_polls a + 3)%nat /\
         requests final
           = requests a ++ [Get (status_url (currentSession a));
                            Get (status_url (currentSession a));
                            Get (status_url (currentSession a));
                            Get jobs_url] /\
         currentJobs final = jobs /\
         jobs_grid final = jobs /\
         notifications final
           = notifications a ++ [(lit "Scraping completed successfully", success)] /\
         progress_hidden final = true /\
         timers final = [] /\ awaiting_status final = 0%nat /\
         awaiting_scrape final = awaiting_scrape a).
    { intros (F1 & F2 & F3 & F4 & F5 & F6 & F7 & F8 & F9).
      do 9 (split; [assumption|]).
      intros Hsc evs.
      assert (Hn : no_chain final) by (unfold no_chain; rewrite F7, F8, F9; auto).
      destruct (run_no_chain evs final Hn) as [_ Hq]. congruence. }
    subst final. rewrite run_app. unfold run, chain_events.
    cbn [flat_map fold_left List.app].
    rewrite (monitor_with_session a Ht).
    rewrite (running_poll_round o1 r1 _ Hf1 Hs1); [| simpl; congruence | exact Htm].
    rewrite (running_poll_round o2 r2 _ Hf2 Hs2); [| reflexivity | exact Htm].
    destruct a; simpl in Hw, Htm, Hj; subst. simpl.
    rewrite (checkProgress_resume_completed o3 c _ Hf3 Hs3). simpl.
    unfold loadJobs_resume, try_catch, bind.
    rewrite (apiCall_settle_fetched oj jobs _ Hfj).
    unfold status_polls. destruct jobs; simpl;
      rewrite ?filter_app, ?length_app, <- ?app_assoc; simpl;
      repeat split; try reflexivity; lia.
Qed.

Lemma completed_poll_refreshes_and_reports_witness :
  progress_hidden (checkProgress_resume (ok_status completed_status) polling_app) = true /\
  status_polls
    (run (chain_events [ok_status running_status; ok_status running_status';
                        ok_status completed_status]
            ++ [JobsSettles (Responded 200 (inr sample_jobs))])
         (monitorScrapingProgress sample_app)) = 3%nat /\
  jobs_grid
    (run (chain_events [ok_status running_status; ok_status running_status';
                        ok_status completed_status]
            ++ [JobsSettles (Responded 200 (inr sample_jobs))])
         (monitorScrapingProgress sample_app)) = sample_jobs.
Proof.
  destruct completed_poll_refreshes_and_reports as [A B].
  split.
  - apply (A (ok_status completed_status) completed_status polling_app);
      reflexivity.
  - destruct (B (ok_status running_status) (ok_status running_status')
                (ok_status completed_status)
                running_status running_status' completed_status
                (Responded 200 (inr sample_jobs)) sample_jobs sample_app
                eq_refl eq_refl eq_refl eq_refl eq_refl eq_refl eq_refl eq_refl
                eq_refl eq_refl eq_refl)
      as (P & _ & _ & G & _).
    split; [exact P | exact G].
Defined.

(** C3: a poll that fetches a status other than "running" and "completed"
    hides the progress section and shows the failure notification, with no
    job-list request and no timer; two such statuses with the same counters
    leave the same state. With the status sequence running, failed, a monitor
    started on a stored session issues exactly two polls, shows the failure
    notification only, and leaves the stored and displayed jobs alone. *)
Theorem failed_poll_reports_failure :
  (forall o s a,
     fetched o = Some (Some s) ->
     status s <> lit "running" -> status s <> lit "completed" ->
     let a' := checkProgress_resume o a in
     progress_hidden a' = true /\
     requests a' = requests a /\
     awaiting_jobs a' = awaiting_jobs a /\
     notifications a' = notifications a ++ [(lit "Scraping failed", error)] /\
     timers a' = timers a) /\
  (forall o o' s s' a,
     fetched o = Some (Some s) -> fetched o' = Some (Some s') ->
     status s <> lit "running" -> status s <> lit "completed" ->
     status s' <> lit "running" -> status s' <> lit "completed" ->
     total_urls s = total_urls s' -> completed s = completed s' ->
     success_count s = success_count s' -> error_count s = error_count s' ->
     checkProgress_resume o a = checkProgress_resume o' a) /\
  (forall o1 o2 r f a,
     truthy (currentSession a) = true ->
     awaiting_status a = 0%nat -> timers a = [] -> awaiting_scrape a = [] ->
     fetched o1 = Some (Some r) -> status r = lit "running" ->
     fetched o2 = Some (Some f) ->
     status f <> lit "running" -> status f <> lit "completed" ->
     let final := run (chain_events [o1; o2]) (monitorScrapingProgress a) in
     status_polls final = (status_polls a + 2)%nat /\
     requests final
       = requests a ++ [Get (status_url (currentSession a));
                        Get (status_url (currentSession a))] /\
     notifications final = notifications a ++ [(lit "Scraping failed", error)] /\
     progress_hidden final = true /\
     currentJobs final = currentJobs a /\
     jobs_grid final = jobs_grid a /\
     awaiting_jobs final = awaiting_jobs a /\
     forall evs : list event,
       status_polls (run evs final) = (status_polls a + 2)%nat).
Proof.
  split; [|split].
  - intros o s a Hf Hr Hc a'. subst a'.
    rewrite (checkProgress_resume_other o s a Hf Hr Hc).
    repeat split; reflexivity.
  - intros o o' s s' a Hf Hf' Hr Hc Hr' Hc' E1 E2 E3 E4.
    rewrite (checkProgress_resume_other o s a Hf Hr Hc).
    rewrite (checkProgress_resume_other o' s' a Hf' Hr' Hc').
    unfold updateProgress_dom, percentage, percentage_ops.
    rewrite E1, E2, E3, E4. reflexivity.
  - intros o1 o2 r f a Ht Hw Htm Hsc Hf1 Hs1 Hf2 Hr Hc final.
    cut (status_polls final = (status_polls a + 2)%nat /\
         requests final
           = requests a ++ [Get (status_url (currentSession a));
                            Get (status_url (currentSession a))] /\
         notifications final = notifications a ++ [(lit "Scraping failed", error)] /\
         progress_hidden final = true /\
         currentJobs final = currentJobs a /\
         jobs_grid final = jobs_grid a /\
         awaiting_jobs final = awaiting_jobs a /\
         no_chain final).
    { intros (F1 & F2 & F3 & F4 & F5 & F6 & F7 & Hn).
      do 7 (split; [assumption|]).
      intros evs. destruct (run_no_chain evs final Hn) as [_ Hq]. congruence. }
    subst final. unfold run, chain_events, no_chain.
    cbn [flat_map fold_left List.app].
    rewrite (monitor_with_session a Ht).
    rewrite (running_poll_round o1 r _ Hf1 Hs1); [| simpl; congruence | exact Htm].
    destruct a; simpl in Hw, Htm, Hsc; subst. simpl.
    rewrite (checkProgress_resume_other o2 f _ Hf2 Hr Hc). simpl.
    unfold status_polls. simpl.
    rewrite ?filter_app, ?length_app, <- ?app_assoc; simpl.
    repeat split; try reflexivity; lia.
Qed.

Lemma failed_poll_reports_failure_witness :
  notifications (checkProgress_resume (ok_status failed_status) polling_app)
    = [(lit "Scraping failed", error)] /\
  checkProgress_resume (ok_status (mkStatus "cancelled" 3 2 2 1)) polling_app
    = checkProgress_resume (ok_status failed_status) polling_app /\
  status_polls
    (run (chain_events [ok_status running_status; ok_status failed_status])
         (monitorScrapingProgress sample_app)) = 2%nat /\
  requests
    (run (chain_events [ok_status running_status; ok_status failed_status])
         (monitorScrapingProgress sample_app))
    = [Get (status_url (Some (lit "s1"))); Get (status_url (Some (lit "s1")))].
Proof.
  destruct failed_poll_reports_failure as (A & B & C).
  split; [|split].
  - apply (A (ok_status failed_status) failed_status polling_app);
      [reflexivity | discriminate | discriminate].
  - apply (B (ok_status (mkStatus "cancelled" 3 2 2 1)) (ok_status failed_status)
             (mkStatus "cancelled" 3 2 2 1) failed_status polling_app);
      try reflexivity; discriminate.
  - assert (Hr : status failed_status <> lit "running") by discriminate.
    assert (Hc : status failed_status <> lit "completed") by discriminate.
    destruct (C (ok_status running_status) (ok_status failed_status)
                running_status failed_status sample_app
                eq_refl eq_refl eq_refl eq_refl eq_refl eq_refl eq_refl Hr Hc)
      as (P & R & _).
    split; [exact P | exact R].
Defined.

(** ** A poll whose fetch fails *)

Lemma failure_not_running o (e : js_error) :
  failure_of o = Some e -> observes_running o = false.
Proof.
  intros H. unfold observes_running.
  destruct (fetched_xor_failure o) as [(v & _ & Hn) | (e' & _ & Hn)].
  - congruence.
  - rewrite Hn. reflexivity.
Qed.

(** C4: a poll whose fetch fails (the transport rejects, the HTTP status is
    not a success, or the body does not decode) sets no timer and sends no
    request, hides the progress section, and shows one error notification,
    the one of apiCall. When the first poll of a monitor fails, that poll is
    the only one: no later timer or fetch event issues another. *)
Theorem failed_fetch_ends_chain :
  (forall o e a,
     failure_of o = Some e ->
     let a' := checkProgress_resume o a in
     timers a' = timers a /\
     requests a' = requests a /\
     awaiting_status a' = awaiting_status a /\
     progress_hidden a' = true /\
     notifications a'
       = notifications a ++ [(lit "API call failed: " ++ message e, error)]) /\
  (forall o e a,
     failure_of o = Some e ->
     truthy (currentSession a) = true ->
     awaiting_status a = 0%nat -> timers a = [] -> awaiting_scrape a = [] ->
     let final := step (StatusSettles o) (monitorScrapingProgress a) in
     status_polls final = S (status_polls a) /\
     progress_hidden final = true /\
     notifications final
       = notifications a ++ [(lit "API call failed: " ++ message e, error)] /\
     forall evs : list event,
       status_polls (run evs final) = S (status_polls a)).
Proof.
  split.
  - intros o e a He a'. subst a'.
    rewrite (checkProgress_resume_failure o e a He).
    repeat split; reflexivity.
  - intros o e a He Ht Hw Htm Hsc final.
    pose proof (failure_not_running o e He) as Hr.
    subst final. rewrite (monitor_with_session a Ht).
    destruct (poll_ends_chain o (checkProgress_request a) Hr) as [Hn Hp];
      [simpl; congruence | exact Htm | exact Hsc |].
    rewrite checkProgress_request_polls in Hp.
    split; [exact Hp|].
    assert (E : step (StatusSettles o) (checkProgress_request a)
                = checkProgress_resume o (with_awaiting_status 0 (checkProgress_request a))).
    { simpl. rewrite Hw. reflexivity. }
    split; [|split].
    + rewrite E, (checkProgress_resume_failure o e _ He). reflexivity.
    + rewrite E, (checkProgress_resume_failure o e _ He). reflexivity.
    + intros evs. destruct (run_no_chain evs _ Hn) as [_ Hq]. congruence.
Qed.

Lemma failed_fetch_ends_chain_witness :
  timers (checkProgress_resume network_down polling_app) = [] /\
  notifications (checkProgress_resume (Responded 503 (inr None)) polling_app)
    = [(lit "API call failed: HTTP error! status: 503", error)] /\
  status_polls
    (run [TimerFires; StatusSettles (ok_status running_status); TimerFires]
         (step (StatusSettles network_down) (monitorScrapingProgress sample_app)))
    = 1%nat.
Proof.
  destruct failed_fetch_ends_chain as [A B].
  split; [|split].
  - apply (A network_down {| message := lit "Failed to fetch" |} polling_app).
    reflexivity.
  - apply (A (Responded 503 (inr None)) (http_error 503) polling_app).
    reflexivity.
  - apply (B network_down {| message := lit "Failed to fetch" |} sample_app);
      reflexivity.
Defined.

(** ** How failures are reported *)

(** C7, as stated, fails: a poll whose fetch is rejected by the transport and
    a poll that fetches status "failed" show different notifications. *)
Lemma failure_reports_differ :
  failure_of network_down = Some {| message := lit "Failed to fetch" |} /\
  fetched (ok_status failed_status) = Some (Some failed_status) /\
  status failed_status = lit "failed" /\
  emitted polling_app (checkProgress_resume network_down polling_app)
    = [(lit "API call failed: Failed to fetch", error)] /\
  emitted polling_app (checkProgress_resume (ok_status failed_status) polling_app)
    = [(lit "Scraping failed", error)] /\
  emitted polling_app (checkProgress_resume network_down polling_app)
    <> emitted polling_app (checkProgress_resume (ok_status failed_status) polling_app).
Proof.
  repeat split; try (vm_compute; reflexivity).
  vm_compute. discriminate.
Qed.

(** C7, amended: a poll whose fetch fails shows the one notification
    "API call failed: " followed by the message of the error, a poll that
    fetches status "failed" shows the one notification "Scraping failed";
    both are of type error, both polls hide the progress section and set no
    timer, and the two texts are never the same. *)
Theorem failure_reports_share_type_only o (e : js_error) o' (s : ProgressStatus) (a : app) :
  failure_of o = Some e ->
  fetched o' = Some (Some s) -> status s = lit "failed" ->
  emitted a (checkProgress_resume o a)
    = [(lit "API call failed: " ++ message e, error)] /\
  emitted a (checkProgress_resume o' a) = [(lit "Scraping failed", error)] /\
  emitted a (checkProgress_resume o a) <> emitted a (checkProgress_resume o' a) /\
  progress_hidden (checkProgress_resume o a) = true /\
  progress_hidden (checkProgress_resume o' a) = true /\
  timers (checkProgress_resume o a) = timers a /\
  timers (checkProgress_resume o' a) = timers a.
Proof.
  intros He Hf Hs.
  assert (Hr : status s <> lit "running") by (rewrite Hs; discriminate).
  assert (Hc : status s <> lit "completed") by (rewrite Hs; discriminate).
  assert (E1 : emitted a (checkProgress_resume o a)
               = [(lit "API call failed: " ++ message e, error)]).
  { apply emitted_app. rewrite (checkProgress_resume_failure o e a He). reflexivity. }
  assert (E2 : emitted a (checkProgress_resume o' a) = [(lit "Scraping failed", error)]).
  { apply emitted_app. rewrite (checkProgress_resume_other o' s a Hf Hr Hc). reflexivity. }
  split; [exact E1|]. split; [exact E2|]. split.
  { rewrite E1, E2. simpl. discriminate. }
  rewrite (checkProgress_resume_failure o e a He).
  rewrite (checkProgress_resume_other o' s a Hf Hr Hc).
  repeat split; reflexivity.
Qed.

Lemma failure_reports_share_type_only_witness :
  emitted polling_app (checkProgress_resume (Responded 200 (inl {| message := lit "Unexpected token" |})) polling_app)
    = [(lit "API call failed: Unexpected token", error)] /\
  emitted polling_app (checkProgress_resume (ok_status failed_status) polling_app)
    = [(lit "Scraping failed", error)].
Proof.
  destruct (failure_reports_share_type_only
              (Responded 200 (inl {| message := lit "Unexpected token" |}))
              {| message := lit "Unexpected token" |}
              (ok_status failed_status) failed_status polling_app
              eq_refl eq_refl eq_refl) as (E1 & E2 & _).
  split; [exact E1 | exact E2].
Defined.

(** ** The job search *)

Lemma trim_start_nil_inv (s : jsstring) :
  trim_start s = [] -> forallb is_white_space s = true.
Proof.
  induction s as [|c s IH]; simpl; [reflexivity|].
  destruct (is_white_space c); [exact IH | discriminate].
Qed.

Lemma trim_start_head (s t : jsstring) (c : N) :
  trim_start s = c :: t -> is_white_space c = false.
Proof.
  induction s as [|d s IH]; simpl; [discriminate|].
  destruct (is_white_space d) eqn:E; [exact IH|].
  intros H. injection H as <- _. exact E.
Qed.

(** [trim] leaves nothing exactly of the strings made of white space. *)
Lemma trim_nil_iff (s : jsstring) :
  trim s = [] <-> forallb is_white_space s = true.
Proof.
  split; [|apply trim_blank].
  unfold trim. intros H.
  assert (H1 : trim_start (rev (trim_start s)) = []).
  { destruct (trim_start (rev (trim_start s))) as [|c t]; [reflexivity|].
    simpl in H. destruct (rev t); discriminate. }
  apply trim_start_nil_inv in H1.
  destruct (trim_start s) as [|c t] eqn:E.
  - apply trim_start_nil_inv, E.
  - apply trim_start_head in E.
    rewrite forallb_forall in H1.
    rewrite (H1 c) in E; [discriminate|].
    apply in_rev. rewrite rev_involutive. left. reflexivity.
Qed.

Lemma includes_nil (q : jsstring) : q <> [] -> includes [] q = false.
Proof. destruct q; [congruence | reflexivity]. Qed.

Section SearchProperties.

Variable toLowerCase : jsstring -> jsstring.

(** Lower-casing maps the empty string, and nothing else, to the empty
    string. *)
Hypothesis toLowerCase_nil : toLowerCase [] = [].
Hypothesis toLowerCase_nonempty : forall s, s <> [] -> toLowerCase s <> [].

Lemma job_matches_contains (query : jsstring) (job : Job) :
  query <> [] ->
  job_title job <> None -> company_name job <> None ->
  job_matches toLowerCase query job = inl (job_contains toLowerCase query job).
Proof.
  intros Hq Ht Hc. unfold job_matches, job_contains, contains_ci.
  destruct (job_title job) as [title|]; [|congruence].
  destruct (company_name job) as [company|]; [|congruence].
  destruct (includes (toLowerCase title) (toLowerCase query)); [reflexivity|].
  destruct (includes (toLowerCase company) (toLowerCase query)); [reflexivity|].
  simpl. destruct (location job) as [[|c l]|]; try reflexivity.
  rewrite toLowerCase_nil, includes_nil; [reflexivity|].
  apply toLowerCase_nonempty, Hq.
Qed.

Lemma filter_throwing_contains (query : jsstring) (jobs : list Job) :
  query <> [] ->
  Forall (fun job => job_title job <> None /\ company_name job <> None) jobs ->
  filter_throwing (job_matches toLowerCase query) jobs
  = inl (filter (job_contains toLowerCase query) jobs).
Proof.
  intros Hq. induction 1 as [|job jobs [Ht Hc] _ IH]; simpl; [reflexivity|].
  rewrite (job_matches_contains query job Hq Ht Hc), IH. reflexivity.
Qed.

(** C10: when every stored job has a title and a company name, searchJobs
    with a query of white space only displays the stored list as it is, and
    with any other query displays the stored jobs, in their order, whose
    title, company name or non-null location contains the query once both
    are lower-cased; it returns normally and leaves the stored list alone. *)
Theorem searchJobs_displays_matches (query : jsstring) (a : app) :
  Forall (fun job => job_title job <> None /\ company_name job <> None)
         (currentJobs a) ->
  let shown :=
    if forallb is_white_space query then currentJobs a
    else filter (job_contains toLowerCase query) (currentJobs a) in
  searchJobs toLowerCase query a = (inl tt, displayJobs shown a) /\
  jobs_grid (snd (searchJobs toLowerCase query a)) = shown /\
  currentJobs (snd (searchJobs toLowerCase query a)) = currentJobs a.
Proof.
  intros Hjobs shown.
  assert (E : searchJobs toLowerCase query a = (inl tt, displayJobs shown a)).
  { subst shown. unfold searchJobs.
    destruct (forallb is_white_space query) eqn:W.
    - rewrite (trim_blank query W). reflexivity.
    - destruct (trim query) as [|c t] eqn:T.
      + apply trim_nil_iff in T. congruence.
      + rewrite filter_throwing_contains; [reflexivity | | exact Hjobs].
        intros ->. discriminate. }
  rewrite E. simpl. split; [reflexivity|]. split.
  - apply displayJobs_grid.
  - unfold displayJobs. destruct (Nat.eqb (List.length shown) 0); reflexivity.
Qed.

End SearchProperties.

Lemma ascii_lower_nonempty (s : jsstring) : s <> [] -> ascii_lower s <> [].
Proof. destruct s; [congruence | discriminate]. Qed.

Lemma searchJobs_displays_matches_witness :
  map job_id
      (jobs_grid (snd (searchJobs ascii_lower (lit "RUST")
                                  (with_jobs sample_jobs sample_app))))
    = [lit "1"; lit "2"; lit "4"] /\
  jobs_grid (snd (searchJobs ascii_lower (lit "  ")
                             (with_jobs sample_jobs sample_app)))
    = sample_jobs.
Proof.
  assert (J : Forall (fun job => job_title job <> None /\ company_name job <> None)
                     (currentJobs (with_jobs sample_jobs sample_app))).
  { repeat constructor; discriminate. }
  destruct (searchJobs_displays_matches ascii_lower eq_refl ascii_lower_nonempty
              (lit "RUST") (with_jobs sample_jobs sample_app) J) as (_ & G & _).
  destruct (searchJobs_displays_matches ascii_lower eq_refl ascii_lower_nonempty
              (lit "  ") (with_jobs sample_jobs sample_app) J) as (_ & G' & _).
  split; [rewrite G; reflexivity | exact G'].
Defined.

(** A stored job without a title makes the search throw, whatever the rest
    of the list. *)
Lemma searchJobs_null_title_throws :
  fst (searchJobs ascii_lower (lit "rust")
         (with_jobs ({| job_id := lit "0"; job_title := None;
                        company_name := Some (lit "Rust Inc");
                        location := None |} :: sample_jobs) sample_app))
  = inr null_method_error.
Proof. reflexivity. Qed.

(** ** Remarks *)

(** The session guard sits in monitorScrapingProgress only: a timer that
    expires runs checkProgress, which sends its request whatever
    currentSession holds. *)
Lemma timer_poll_is_unguarded (a : app) (rest : list (Z * callback)) :
  timers a = (2000, CheckProgress) :: rest ->
  status_polls (step TimerFires a) = S (status_polls a) /\
  timers (step TimerFires a) = rest.
Proof.
  intros H. simpl. rewrite H. simpl.
  rewrite checkProgress_request_polls. split; reflexivity.
Qed.

(** For up to 100 URLs the percentage of updateProgress is within 2^-46 of
    100 * completed / total_urls: the two differ by rounding only. *)
Lemma percentage_accuracy_up_to_100 :
  forallb (fun t =>
    forallb (fun c => within (percentage (mkStatus "running" t c c 0)) (100 * c) t 46)
            (Zrange 0 (S (Z.to_nat t))))
    (Zrange 1 100) = true.
Proof. vm_compute. reflexivity. Qed.

(** * Further properties *)

(** ** trim, split and getJobUrls *)

Lemma trim_start_suffix (s : jsstring) :
  exists pre, s = pre ++ trim_start s /\ forallb is_white_space pre = true.
Proof.
  induction s as [|c s (pre & E & W)]; simpl.
  - exists []. split; reflexivity.
  - destruct (is_white_space c) eqn:Hc.
    + exists (c :: pre). simpl. rewrite Hc, W. split; [congruence | reflexivity].
    + exists []. split; reflexivity.
Qed.

Lemma trim_start_fixed (c : N) (t : jsstring) :
  is_white_space c = false -> trim_start (c :: t) = c :: t.
Proof. intros H. simpl. rewrite H. reflexivity. Qed.

Lemma trim_start_In (s : jsstring) (c : N) : In c (trim_start s) -> In c s.
Proof.
  destruct (trim_start_suffix s) as (pre & E & _).
  intros H. rewrite E. apply in_or_app. right. exact H.
Qed.

Lemma trim_In (s : jsstring) (c : N) : In c (trim s) -> In c s.
Proof.
  unfold trim. intros H.
  apply in_rev in H. apply trim_start_In in H.
  apply in_rev in H. apply trim_start_In in H. exact H.
Qed.

(** What [trim] returns is empty, or starts and ends with code units that
    are not white space, and is its own trim. *)
Lemma trim_result (s : jsstring) :
  trim s = [] \/ (ends_clean (trim s) /\ trim (trim s) = trim s).
Proof.
  unfold trim.
  destruct (trim_start (rev (trim_start s))) as [|y Y] eqn:EY; [left; reflexivity|].
  right.
  pose proof (trim_start_head _ _ _ EY) as Hy.
  destruct (trim_start_suffix (rev (trim_start s))) as (pre & E & _).
  rewrite EY in E.
  assert (EX : trim_start s = rev (y :: Y) ++ rev pre).
  { rewrite <- rev_app_distr, <- E, rev_involutive. reflexivity. }
  destruct (rev (y :: Y)) as [|c t] eqn:ER.
  { apply (f_equal (@List.length N)) in ER. rewrite length_rev in ER. discriminate. }
  simpl in EX. pose proof (trim_start_head _ _ _ EX) as Hc.
  assert (EL : last (c :: t) c = y).
  { rewrite <- ER. simpl. apply last_last. }
  split.
  - unfold ends_clean. rewrite EL. split; assumption.
  - rewrite (trim_start_fixed c t Hc).
    rewrite <- ER, rev_involutive, (trim_start_fixed y Y Hy). reflexivity.
Qed.

Lemma split_no_sep (sep : N) (s : jsstring) :
  Forall (fun piece => ~ In sep piece) (split sep s).
Proof.
  induction s as [|c s IH]; simpl.
  - constructor; [intros [] | constructor].
  - destruct (N.eqb c sep) eqn:E.
    + constructor; [intros [] | exact IH].
    + apply N.eqb_neq in E.
      destruct (split sep s) as [|piece pieces].
      * constructor; [|constructor]. intros [H|[]]. congruence.
      * inversion IH as [|? ? Hp Hps]; subst.
        constructor; [|exact Hps]. intros [H|H]; [congruence | exact (Hp H)].
Qed.

(** The pieces of [split], put together again with the separator, are the
    string that was split. *)
Lemma split_concat (sep : N) (s : jsstring) :
  exists piece pieces,
    split sep s = piece :: pieces /\
    s = piece ++ flat_map (fun p => sep :: p) pieces.
Proof.
  induction s as [|c s (piece & pieces & E & J)]; simpl.
  - exists [], []. split; reflexivity.
  - destruct (N.eqb c sep) eqn:Ec.
    + apply N.eqb_eq in Ec. subst c.
      exists [], (split sep s). split; [reflexivity|].
      rewrite E. simpl. congruence.
    + rewrite E. exists (c :: piece), pieces. split; [reflexivity|].
      simpl. congruence.
Qed.

Lemma split_blank_inv (sep : N) (s : jsstring) :
  is_white_space sep = true ->
  Forall (fun piece => forallb is_white_space piece = true) (split sep s) ->
  forallb is_white_space s = true.
Proof.
  intros Hsep. induction s as [|c s IH]; simpl; [reflexivity|].
  destruct (N.eqb c sep) eqn:Ec.
  - apply N.eqb_eq in Ec. subst c. intros H. inversion H; subst.
    rewrite Hsep. simpl. apply IH. assumption.
  - destruct (split sep s) as [|piece pieces].
    + intros H. inversion H as [|? ? Hp _]; subst. simpl in Hp.
      apply andb_true_iff in Hp as [Hc _]. rewrite Hc. simpl.
      apply IH. constructor.
    + intros H. inversion H as [|? ? Hp Hps]; subst. simpl in Hp.
      apply andb_true_iff in Hp as [Hc Hp]. rewrite Hc. simpl.
      apply IH. constructor; assumption.
Qed.

Lemma getJobUrls_In (a : app) (u : jsstring) :
  In u (getJobUrls a) ->
  u <> [] /\ exists piece, In piece (split newline (job_urls a)) /\ u = trim piece.
Proof.
  unfold getJobUrls. intros H. apply filter_In in H as [H L].
  apply in_map_iff in H as (piece & E & Hp).
  split.
  - intros ->. discriminate.
  - exists piece. split; [exact Hp | congruence].
Qed.

(** X1: every URL that getJobUrls returns is non-empty, contains no line
    break, starts and ends with a code unit that is not white space, and is
    left as it is by a further trim. *)
Theorem getJobUrls_clean (a : app) :
  Forall (fun u => u <> [] /\ ~ In newline u /\ ends_clean u /\ trim u = u)
         (getJobUrls a).
Proof.
  apply Forall_forall. intros u H.
  apply getJobUrls_In in H as (Hne & piece & Hp & ->).
  split; [exact Hne|]. split.
  - intros Hin. apply trim_In in Hin.
    pose proof (split_no_sep newline (job_urls a)) as F.
    rewrite Forall_forall in F. exact (F piece Hp Hin).
  - destruct (trim_result piece) as [E | [C I]]; [contradiction|].
    split; assumption.
Qed.

Lemma getJobUrls_nil_iff (a : app) :
  getJobUrls a = [] <-> forallb is_white_space (job_urls a) = true.
Proof.
  split.
  - unfold getJobUrls. intros H.
    apply (split_blank_inv newline); [reflexivity|].
    apply Forall_forall. intros piece Hp. apply trim_nil_iff.
    destruct (trim piece) as [|c t] eqn:E; [reflexivity|].
    assert (Hin : In (c :: t)
              (filter (fun url => Nat.ltb 0 (List.length url))
                      (map trim (split newline (job_urls a))))).
    { apply filter_In. split; [|reflexivity].
      rewrite <- E. apply in_map. exact Hp. }
    rewrite H in Hin. destruct Hin.
  - intros H. unfold getJobUrls. apply blank_lines_dropped, split_blank, H.
Qed.

(** X2: getJobUrls returns the empty list exactly when the textarea holds
    white space and line breaks only; for any other content startScraping
    shows no warning and sends one POST /scrape whose body lists the URLs of
    getJobUrls. *)
Theorem startScraping_posts_unless_blank (a : app) :
  (getJobUrls a = [] <-> forallb is_white_space (job_urls a) = true) /\
  (forallb is_white_space (job_urls a) = false ->
   requests (startScraping a) = requests a ++ [Post scrape_url (getJobUrls a)] /\
   awaiting_scrape (startScraping a) = awaiting_scrape a ++ [getJobUrls a] /\
   notifications (startScraping a) = notifications a /\
   currentSession (startScraping a) = currentSession a).
Proof.
  pose proof (getJobUrls_nil_iff a) as I.
  split; [exact I|].
  intros W. unfold startScraping.
  destruct (getJobUrls a) as [|u us] eqn:E.
  - destruct I as [I _]. rewrite (I eq_refl) in W. discriminate.
  - simpl. repeat split; reflexivity.
Qed.

Lemma startScraping_posts_unless_blank_witness :
  requests (startScraping two_urls_app)
    = [Post scrape_url [lit "https://a.example/1"; lit "https://b.example/2"]] /\
  notifications (startScraping two_urls_app) = [].
Proof.
  destruct (startScraping_posts_unless_blank two_urls_app) as [_ P].
  destruct (P eq_refl) as (R & _ & Nf & _).
  split; [exact R | exact Nf].
Defined.

(** ** Starting a scrape *)

Lemma startScraping_resume_fetched (urls : list jsstring) o
    (sid : option jsstring) (a : app) :
  fetched o = Some sid ->
  startScraping_resume urls o a
  = showNotification (started_text urls) success
      (monitorScrapingProgress (showProgressSection (with_session sid a))).
Proof.
  intros H. unfold startScraping_resume, try_catch, bind.
  rewrite (apiCall_settle_fetched o sid a H). reflexivity.
Qed.

Lemma startScraping_resume_failure (urls : list jsstring) o
    (e : js_error) (a : app) :
  failure_of o = Some e ->
  startScraping_resume urls o a
  = showNotification (lit "Failed to start scraping") error
      (showNotification (lit "API call failed: " ++ message e) error
         (console_error (lit "API call failed:") a)).
Proof.
  intros H. unfold startScraping_resume, try_catch, bind.
  rewrite (apiCall_settle_failure o e a H). reflexivity.
Qed.

Lemma truthy_cases (s : option jsstring) :
  (truthy s = true /\ exists c t, s = Some (c :: t)) \/
  (truthy s = false /\ (s = None \/ s = Some [])).
Proof.
  destruct s as [[|c t]|]; simpl.
  - right. split; [reflexivity | right; reflexivity].
  - left. split; [reflexivity | exists c, t; reflexivity].
  - right. split; [reflexivity | left; reflexivity].
Qed.

(** X3: when the textarea is not blank and the POST /scrape is answered with
    a non-empty session id, the click and the answer together store that id,
    show the progress section, send the POST and then the first status
    request for that very id, and show one success notification that counts
    the URLs of getJobUrls. *)
Theorem scrape_start_begins_chain o (sid : jsstring) (a : app) :
  forallb is_white_space (job_urls a) = false ->
  awaiting_scrape a = [] ->
  fetched o = Some (Some sid) -> sid <> [] ->
  let a' := step (ScrapeSettles o) (startScraping a) in
  currentSession a' = Some sid /\
  progress_hidden a' = false /\
  requests a' = requests a ++ [Post scrape_url (getJobUrls a);
                               Get (status_url (Some sid))] /\
  awaiting_status a' = S (awaiting_status a) /\
  timers a' = timers a /\
  awaiting_scrape a' = [] /\
  notifications a' = notifications a ++ [(started_text (getJobUrls a), success)].
Proof.
  intros W Hs Hf Hne a'. subst a'.
  pose proof (getJobUrls_nil_iff a) as I.
  unfold startScraping.
  destruct (getJobUrls a) as [|u us] eqn:E.
  { destruct I as [I _]. rewrite (I eq_refl) in W. discriminate. }
  simpl. rewrite Hs. simpl.
  rewrite (startScraping_resume_fetched _ o _ _ Hf).
  destruct sid as [|c sid]; [congruence|].
  unfold monitorScrapingProgress. simpl.
  rewrite <- app_assoc. repeat split; reflexivity.
Qed.

Lemma scrape_start_begins_chain_witness :
  requests (step (ScrapeSettles session_s2) (startScraping two_urls_app))
    = [Post scrape_url [lit "https://a.example/1"; lit "https://b.example/2"];
       Get (status_url (Some (lit "s2")))] /\
  notifications (step (ScrapeSettles session_s2) (startScraping two_urls_app))
    = [(lit "Started scraping 2 job postings", success)].
Proof.
  assert (Hne : lit "s2" <> []) by discriminate.
  destruct (scrape_start_begins_chain session_s2 (lit "s2") two_urls_app
              eq_refl eq_refl eq_refl Hne) as (_ & _ & R & _ & _ & _ & Nf).
  split; [exact R | exact Nf].
Defined.

Lemma step_no_chain_progress (ev : event) (a : app) :
  no_chain a -> progress_hidden (step ev a) = progress_hidden a.
Proof.
  intros (Hs & Ht & Hc).
  destruct ev as [ | o | o | o]; simpl.
  - rewrite Ht. reflexivity.
  - rewrite Hs. reflexivity.
  - destruct (awaiting_jobs a) as [|n]; [reflexivity|].
    apply (loadJobs_resume_frame o (with_awaiting_jobs n a)).
  - rewrite Hc. reflexivity.
Qed.

Lemma run_no_chain_progress (evs : list event) (a : app) :
  no_chain a -> progress_hidden (run evs a) = progress_hidden a.
Proof.
  revert a. induction evs as [|ev evs IH]; intros a H; simpl; [reflexivity|].
  destruct (step_no_chain ev a H) as [H1 _].
  rewrite (IH (step ev a) H1). apply step_no_chain_progress, H.
Qed.

(** X4: when the POST /scrape is answered without a session id (null or the
    empty string), startScraping still shows the progress section and the
    success notification, but no status request goes out; with no other
    chain alive, no later timer or fetch event hides the progress section
    again or sends a status request. *)
Theorem scrape_start_without_session (urls : list jsstring) o
    (sid : option jsstring) (a : app) :
  fetched o = Some sid -> sid = None \/ sid = Some [] ->
  let a' := startScraping_resume urls o a in
  progress_hidden a' = false /\
  requests a' = requests a /\
  awaiting_status a' = awaiting_status a /\
  timers a' = timers a /\
  notifications a' = notifications a ++ [(started_text urls, success)] /\
  (no_chain a ->
   forall evs : list event,
     progress_hidden (run evs a') = false /\
     status_polls (run evs a') = status_polls a).
Proof.
  intros Hf Hsid a'. subst a'.
  rewrite (startScraping_resume_fetched urls o sid a Hf).
  assert (E : monitorScrapingProgress (showProgressSection (with_session sid a))
              = showProgressSection (with_session sid a)).
  { unfold monitorScrapingProgress. destruct Hsid as [-> | ->]; reflexivity. }
  rewrite E. do 5 (split; [reflexivity|]).
  intros Hn evs.
  assert (Hn' : no_chain (showNotification (started_text urls) success
                            (showProgressSection (with_session sid a)))).
  { exact Hn. }
  rewrite (run_no_chain_progress evs _ Hn').
  destruct (run_no_chain evs _ Hn') as [_ Hp]. rewrite Hp.
  split; reflexivity.
Qed.

Lemma scrape_start_without_session_witness :
  progress_hidden
    (run [TimerFires; StatusSettles (ok_status completed_status); TimerFires]
         (startScraping_resume [lit "https://a.example/1"]
            (Responded 200 (inr None)) two_urls_app)) = false /\
  status_polls
    (run [TimerFires; StatusSettles (ok_status completed_status); TimerFires]
         (startScraping_resume [lit "https://a.example/1"]
            (Responded 200 (inr None)) two_urls_app)) = 0%nat.
Proof.
  destruct (scrape_start_without_session [lit "https://a.example/1"]
              (Responded 200 (inr None)) None two_urls_app eq_refl
              (or_introl eq_refl)) as (_ & _ & _ & _ & _ & F).
  assert (Hn : no_chain two_urls_app) by (repeat split; reflexivity).
  exact (F Hn [TimerFires; StatusSettles (ok_status completed_status); TimerFires]).
Defined.

(** X5: when the POST /scrape fails, the user is shown two error
    notifications, the one of apiCall and then "Failed to start scraping";
    the stored session, the progress section, the requests and the poll
    chains are left as they were. *)
Theorem scrape_start_failure (urls : list jsstring) o (e : js_error) (a : app) :
  failure_of o = Some e ->
  let a' := startScraping_resume urls o a in
  emitted a a' = [(lit "API call failed: " ++ message e, error);
                  (lit "Failed to start scraping", error)] /\
  currentSession a' = currentSession a /\
  progress_hidden a' = progress_hidden a /\
  requests a' = requests a /\
  awaiting_status a' = awaiting_status a /\
  timers a' = timers a.
Proof.
  intros He a'. subst a'.
  rewrite (startScraping_resume_failure urls o e a He).
  split; [|repeat split; reflexivity].
  apply emitted_app. simpl. rewrite <- app_assoc. reflexivity.
Qed.

Lemma scrape_start_failure_witness :
  emitted two_urls_app
    (startScraping_resume [lit "https://a.example/1"] (Responded 500 (inr None))
       two_urls_app)
  = [(lit "API call failed: HTTP error! status: 500", error);
     (lit "Failed to start scraping", error)].
Proof.
  apply (scrape_start_failure [lit "https://a.example/1"] (Responded 500 (inr None))
           (http_error 500) two_urls_app eq_refl).
Defined.

(** ** Several chains *)

(** X6: a poll reads the stored session when it is sent. When a POST /scrape
    is answered with a new session id while an earlier chain waits on its
    timer, that timer's poll asks for the new session too: two status
    requests for the new id go out, none for the old one, and one more chain
    is alive than before. *)
Theorem superseded_chain_polls_new_session o (sid : jsstring) (a : app)
    (t : Z * callback) (ts : list (Z * callback))
    (urls : list jsstring) (rest : list (list jsstring)) :
  timers a = t :: ts -> awaiting_scrape a = urls :: rest ->
  fetched o = Some (Some sid) -> sid <> [] ->
  let a' := step TimerFires (step (ScrapeSettles o) a) in
  requests a' = requests a ++ [Get (status_url (Some sid));
                               Get (status_url (Some sid))] /\
  awaiting_status a' = S (S (awaiting_status a)) /\
  timers a' = ts /\
  chains a' = S (chains a).
Proof.
  intros Ht Hs Hf Hne a'. subst a'.
  simpl. rewrite Hs.
  rewrite (startScraping_resume_fetched urls o _ _ Hf).
  destruct sid as [|c sid]; [congruence|].
  unfold monitorScrapingProgress. simpl. rewrite Ht.
  destruct t as [d []]. unfold chains. simpl. rewrite Ht. simpl.
  rewrite <- app_assoc. repeat split; try reflexivity. lia.
Qed.

Lemma superseded_chain_polls_new_session_witness :
  currentSession superseded_app = Some (lit "s1") /\
  requests (step TimerFires (step (ScrapeSettles session_s2) superseded_app))
    = [Get (status_url (Some (lit "s1")));
       Get (status_url (Some (lit "s2")));
       Get (status_url (Some (lit "s2")))] /\
  chains (step TimerFires (step (ScrapeSettles session_s2) superseded_app)) = 2%nat.
Proof.
  assert (Hne : lit "s2" <> []) by discriminate.
  destruct (superseded_chain_polls_new_session session_s2 (lit "s2") superseded_app
              (2000, CheckProgress) [] [lit "https://b.example/2"] []
              eq_refl eq_refl eq_refl Hne) as (R & _ & _ & C).
  split; [reflexivity|]. split; [exact R | exact C].
Defined.

Lemma startScraping_resume_chains (urls : list jsstring) o (a : app) :
  (awaiting_status (startScraping_resume urls o a) <= S (awaiting_status a))%nat /\
  timers (startScraping_resume urls o a) = timers a.
Proof.
  destruct (fetched_xor_failure o) as [(sid & Hf & _) | (e & He & _)].
  - rewrite (startScraping_resume_fetched urls o sid a Hf).
    unfold monitorScrapingProgress. simpl.
    destruct (truthy sid); simpl; split; try reflexivity; lia.
  - rewrite (startScraping_resume_failure urls o e a He). simpl.
    split; [lia | reflexivity].
Qed.

Lemma step_chains (ev : event) (a : app) :
  (chains (step ev a) <= chains a + scrape_answers [ev])%nat.
Proof.
  unfold chains, scrape_answers.
  destruct ev as [ | o | o | o]; simpl.
  - destruct (timers a) as [|[d []] ts] eqn:E; simpl; rewrite ?E; simpl; lia.
  - destruct (awaiting_status a) as [|n] eqn:E; [rewrite E; lia|].
    destruct (checkProgress_resume_polls o (with_awaiting_status n a)) as (_ & Hw & _).
    rewrite Hw, checkProgress_resume_timers, length_app. simpl.
    destruct (observes_running o); simpl; lia.
  - destruct (awaiting_jobs a) as [|n]; [lia|].
    destruct (loadJobs_resume_frame o (with_awaiting_jobs n a)) as (_ & H1 & _ & H3 & _).
    rewrite H1, H3. simpl. lia.
  - destruct (awaiting_scrape a) as [|urls rest]; [lia|].
    destruct (startScraping_resume_chains urls o (with_awaiting_scrape rest a))
      as [H1 H2].
    rewrite H2. simpl in *. lia.
Qed.

(** X7: only an answer to POST /scrape can add a poll chain. Over any
    sequence of timer and fetch events the number of chains alive (polls
    awaited plus polls scheduled) grows by at most the number of such
    answers; a chain never forks. *)
Theorem chains_grow_with_scrapes_only (evs : list event) (a : app) :
  (chains (run evs a) <= chains a + scrape_answers evs)%nat.
Proof.
  revert a. induction evs as [|ev evs IH]; intros a; simpl.
  - unfold scrape_answers. simpl. lia.
  - specialize (IH (step ev a)). pose proof (step_chains ev a) as H.
    unfold scrape_answers in *. simpl in *.
    destruct ev; simpl in *; lia.
Qed.

(** ** The job list on display *)

Lemma displayJobs_consistent (jobs : list Job) (a : app) :
  display_consistent (displayJobs jobs a).
Proof. destruct jobs; reflexivity. Qed.

Lemma displayJobs_frame (jobs : list Job) (a : app) :
  currentJobs (displayJobs jobs a) = currentJobs a /\
  notifications (displayJobs jobs a) = notifications a.
Proof. destruct jobs; split; reflexivity. Qed.

Lemma loadJobs_resume_failure o (e : js_error) (a : app) :
  failure_of o = Some e ->
  loadJobs_resume o a
  = displayJobs []
      (console_error (lit "Failed to load jobs:")
         (showNotification (lit "API call failed: " ++ message e) error
            (console_error (lit "API call failed:") a))).
Proof.
  intros H. unfold loadJobs_resume, try_catch, bind.
  rewrite (apiCall_settle_failure o e a H). reflexivity.
Qed.

Lemma loadJobs_resume_fetched o (jobs : list Job) (a : app) :
  fetched o = Some jobs ->
  loadJobs_resume o a = displayJobs jobs (with_jobs jobs a).
Proof.
  intros H. unfold loadJobs_resume, try_catch, bind.
  rewrite (apiCall_settle_fetched o jobs a H). reflexivity.
Qed.

Lemma searchJobs_blank (lower : jsstring -> jsstring) (query : jsstring) (a : app) :
  forallb is_white_space query = true ->
  searchJobs lower query a = (inl tt, displayJobs (currentJobs a) a).
Proof.
  intros W. unfold searchJobs. rewrite (trim_blank query W). reflexivity.
Qed.

(** X8: when the job-list fetch fails, loadJobs empties the grid and shows
    the empty state with one error notification, but keeps the jobs it had
    stored: a search with a blank query then puts the old list back on
    display. *)
Theorem loadJobs_failure_keeps_stored_jobs o (e : js_error) (a : app) :
  failure_of o = Some e ->
  let a' := loadJobs_resume o a in
  jobs_grid a' = [] /\
  empty_state_hidden a' = false /\
  currentJobs a' = currentJobs a /\
  emitted a a' = [(lit "API call failed: " ++ message e, error)] /\
  forall (lower : jsstring -> jsstring) (query : jsstring),
    forallb is_white_space query = true ->
    jobs_grid (snd (searchJobs lower query a')) = currentJobs a.
Proof.
  intros He a'. subst a'.
  rewrite (loadJobs_resume_failure o e a He).
  do 3 (split; [reflexivity|]). split.
  - apply emitted_app. reflexivity.
  - intros lower query W. rewrite (searchJobs_blank lower query _ W).
    simpl. apply displayJobs_grid.
Qed.

Lemma loadJobs_failure_keeps_stored_jobs_witness :
  jobs_grid (loadJobs_resume (Responded 502 (inr [])) (with_jobs sample_jobs sample_app))
    = [] /\
  jobs_grid
    (snd (searchJobs ascii_lower []
            (loadJobs_resume (Responded 502 (inr [])) (with_jobs sample_jobs sample_app))))
    = sample_jobs.
Proof.
  destruct (loadJobs_failure_keeps_stored_jobs (Responded 502 (inr []))
              (http_error 502) (with_jobs sample_jobs sample_app) eq_refl)
    as (G & _ & _ & _ & S).
  split; [exact G | exact (S ascii_lower [] eq_refl)].
Defined.

Lemma checkProgress_resume_display o (a : app) :
  jobs_grid (checkProgress_resume o a) = jobs_grid a /\
  empty_state_hidden (checkProgress_resume o a) = empty_state_hidden a.
Proof.
  destruct (fetched_xor_failure o) as [(v & Hv & _) | (e & He & _)].
  - destruct v as [s|].
    + rewrite (checkProgress_resume_fetched o s a Hv). unfold checkProgress_branch.
      destruct (jsstring_eqb (status s) (lit "running")); [split; reflexivity|].
      destruct (jsstring_eqb (status s) (lit "completed")); split; reflexivity.
    + rewrite (checkProgress_resume_null o a Hv). split; reflexivity.
  - rewrite (checkProgress_resume_failure o e a He). split; reflexivity.
Qed.

Lemma startScraping_resume_display (urls : list jsstring) o (a : app) :
  jobs_grid (startScraping_resume urls o a) = jobs_grid a /\
  empty_state_hidden (startScraping_resume urls o a) = empty_state_hidden a.
Proof.
  destruct (fetched_xor_failure o) as [(sid & Hf & _) | (e & He & _)].
  - rewrite (startScraping_resume_fetched urls o sid a Hf).
    unfold monitorScrapingProgress. simpl.
    destruct (truthy sid); split; reflexivity.
  - rewrite (startScraping_resume_failure urls o e a He). split; reflexivity.
Qed.

Lemma step_display_consistent (ev : event) (a : app) :
  display_consistent a -> display_consistent (step ev a).
Proof.
  unfold display_consistent. intros H.
  destruct ev as [ | o | o | o]; simpl.
  - destruct (timers a) as [|[d []] ts]; [exact H|]. simpl. exact H.
  - destruct (awaiting_status a) as [|n]; [exact H|].
    destruct (checkProgress_resume_display o (with_awaiting_status n a)) as [G E].
    rewrite G, E. exact H.
  - destruct (awaiting_jobs a) as [|n]; [exact H|].
    destruct (fetched_xor_failure o) as [(jobs & Hf & _) | (e & He & _)].
    + rewrite (loadJobs_resume_fetched o jobs _ Hf). apply displayJobs_consistent.
    + rewrite (loadJobs_resume_failure o e _ He). apply displayJobs_consistent.
  - destruct (awaiting_scrape a) as [|urls rest]; [exact H|].
    destruct (startScraping_resume_display urls o (with_awaiting_scrape rest a)) as [G E].
    rewrite G, E. exact H.
Qed.

(** X9: the empty-state element and the grid stay in step. If the
    empty-state element is hidden exactly when the grid shows at least one
    card, this is still so after any sequence of timer and fetch events and
    after any search, throwing or not. *)
Theorem display_stays_consistent (lower : jsstring -> jsstring)
    (evs : list event) (query : jsstring) (a : app) :
  display_consistent a ->
  display_consistent (run evs a) /\
  display_consistent (snd (searchJobs lower query (run evs a))).
Proof.
  intros H.
  assert (R : display_consistent (run evs a)).
  { revert a H. induction evs as [|ev evs IH]; intros a H; simpl; [exact H|].
    apply IH, step_display_consistent, H. }
  split; [exact R|].
  unfold searchJobs. destruct (trim query).
  - apply displayJobs_consistent.
  - destruct (filter_throwing (job_matches lower query) (currentJobs (run evs a))).
    + apply displayJobs_consistent.
    + exact R.
Qed.

Lemma display_stays_consistent_witness :
  display_consistent
    (run [JobsSettles (Responded 200 (inr []))] (loadJobs_request two_urls_app)) /\
  display_consistent
    (snd (searchJobs ascii_lower (lit "rust")
            (run [JobsSettles (Responded 200 (inr []))] (loadJobs_request two_urls_app)))).
Proof.
  apply (display_stays_consistent ascii_lower [JobsSettles (Responded 200 (inr []))]
           (lit "rust") (loadJobs_request two_urls_app)).
  reflexivity.
Defined.

Lemma searchJobs_state (lower : jsstring -> jsstring) (query : jsstring) (a : app) :
  snd (searchJobs lower query a) = a \/
  exists shown, snd (searchJobs lower query a) = displayJobs shown a.
Proof.
  unfold searchJobs. destruct (trim query).
  - right. eexists. reflexivity.
  - destruct (filter_throwing (job_matches lower query) (currentJobs a)).
    + right. eexists. reflexivity.
    + left. reflexivity.
Qed.

(** X11: a search always filters the stored list, never what is on display:
    after a search for one query, a search for another returns or throws as
    it would have without the first and, when it returns, leaves the state
    that it would have left without the first. No search changes the stored
    list. *)
Theorem searchJobs_does_not_compound (lower : jsstring -> jsstring)
    (q1 q2 : jsstring) (a : app) :
  fst (searchJobs lower q2 (snd (searchJobs lower q1 a)))
    = fst (searchJobs lower q2 a) /\
  (fst (searchJobs lower q2 a) = inl tt ->
   snd (searchJobs lower q2 (snd (searchJobs lower q1 a)))
     = snd (searchJobs lower q2 a)) /\
  currentJobs (snd (searchJobs lower q1 a)) = currentJobs a.
Proof.
  assert (K : forall a', (a' = a \/ exists shown, a' = displayJobs shown a) ->
            fst (searchJobs lower q2 a') = fst (searchJobs lower q2 a) /\
            (fst (searchJobs lower q2 a) = inl tt ->
             snd (searchJobs lower q2 a') = snd (searchJobs lower q2 a)) /\
            currentJobs a' = currentJobs a).
  { intros a' [-> | [shown ->]]; [repeat split; reflexivity|].
    assert (C : currentJobs (displayJobs shown a) = currentJobs a)
      by apply displayJobs_frame.
    assert (D : forall l, displayJobs l (displayJobs shown a) = displayJobs l a)
      by (intros l; destruct shown, l; reflexivity).
    unfold searchJobs. rewrite C.
    destruct (trim q2); simpl.
    - rewrite D. repeat split; reflexivity.
    - destruct (filter_throwing (job_matches lower q2) (currentJobs a)); simpl.
      + rewrite D. repeat split; reflexivity.
      + split; [reflexivity|]. split; [discriminate | reflexivity]. }
  apply K, searchJobs_state.
Qed.

Lemma searchJobs_does_not_compound_witness :
  map job_id
    (jobs_grid (snd (searchJobs ascii_lower (lit "rust")
                       (snd (searchJobs ascii_lower (lit "cook")
                               (with_jobs sample_jobs sample_app))))))
  = [lit "1"; lit "2"; lit "4"].
Proof.
  destruct (searchJobs_does_not_compound ascii_lower (lit "cook") (lit "rust")
              (with_jobs sample_jobs sample_app)) as (_ & S & _).
  rewrite (S eq_refl). reflexivity.
Defined.

Section SearchThrows.

Variable toLowerCase : jsstring -> jsstring.
Hypothesis toLowerCase_nil : toLowerCase [] = [].
Hypothesis toLowerCase_nonempty : forall s, s <> [] -> toLowerCase s <> [].

Lemma job_matches_cases (query : jsstring) (job : Job) :
  query <> [] ->
  job_matches toLowerCase query job
  = if search_breaks toLowerCase query job then inr null_method_error
    else inl (job_contains toLowerCase query job).
Proof.
  intros Hq. unfold job_matches, search_breaks, job_contains, contains_ci.
  destruct (job_title job) as [title|]; [|reflexivity].
  destruct (includes (toLowerCase title) (toLowerCase query)); [reflexivity|].
  destruct (company_name job) as [company|]; [|reflexivity].
  destruct (includes (toLowerCase company) (toLowerCase query)); [reflexivity|].
  simpl. destruct (location job) as [[|c l]|]; try reflexivity.
  rewrite toLowerCase_nil, includes_nil; [reflexivity|].
  apply toLowerCase_nonempty, Hq.
Qed.

Lemma filter_throwing_cases (query : jsstring) (jobs : list Job) :
  query <> [] ->
  filter_throwing (job_matches toLowerCase query) jobs
  = if existsb (search_breaks toLowerCase query) jobs then inr null_method_error
    else inl (filter (job_contains toLowerCase query) jobs).
Proof.
  intros Hq. induction jobs as [|job jobs IH]; simpl; [reflexivity|].
  rewrite (job_matches_cases query job Hq), IH.
  destruct (search_breaks toLowerCase query job); simpl; [reflexivity|].
  destruct (existsb (search_breaks toLowerCase query) jobs); reflexivity.
Qed.

(** X10: with a query that is not blank, searchJobs throws a TypeError
    exactly when some stored job, wherever it stands in the list, has a null
    title, or a title that does not contain the query together with a null
    company name; it then leaves the page as it was. Otherwise it displays
    the matching jobs. *)
Theorem searchJobs_throws_exactly (query : jsstring) (a : app) :
  forallb is_white_space query = false ->
  searchJobs toLowerCase query a
  = if existsb (search_breaks toLowerCase query) (currentJobs a)
    then (inr null_method_error, a)
    else (inl tt,
          displayJobs (filter (job_contains toLowerCase query) (currentJobs a)) a).
Proof.
  intros W. unfold searchJobs.
  destruct (trim query) as [|c t] eqn:T.
  - apply trim_nil_iff in T. congruence.
  - rewrite filter_throwing_cases.
    + destruct (existsb (search_breaks toLowerCase query) (currentJobs a));
        reflexivity.
    + intros ->. discriminate.
Qed.

End SearchThrows.

Lemma searchJobs_throws_exactly_witness :
  searchJobs ascii_lower (lit "acme")
    (with_jobs (sample_jobs ++ [ {| job_id := lit "5"; job_title := Some (lit "Clerk");
                                    company_name := None; location := None |} ])
               sample_app)
  = (inr null_method_error,
     with_jobs (sample_jobs ++ [ {| job_id := lit "5"; job_title := Some (lit "Clerk");
                                    company_name := None; location := None |} ])
               sample_app).
Proof.
  apply (searchJobs_throws_exactly ascii_lower eq_refl ascii_lower_nonempty
           (lit "acme")). reflexivity.
Defined.

(** ** formatSalary *)

Lemma currency_symbol_nonempty (job : Salary) : currency_symbol job <> [].
Proof.
  unfold currency_symbol.
  destruct (salary_currency job) as [[|c code]|]; try discriminate.
  destruct (jsstring_eqb (c :: code) (lit "USD")); discriminate.
Qed.

(** X12: formatSalary returns null exactly when salary_text and salary_min
    are both falsy (null, the empty string, 0 or NaN), whatever salary_max
    holds; a truthy salary_text is returned as it is; and the result is never
    the empty string. *)
Theorem formatSalary_null_iff (toLocaleString : number -> jsstring) (job : Salary) :
  (formatSalary toLocaleString job = None <->
   truthy (salary_text job) = false /\ number_truthy (salary_min job) = false) /\
  (truthy (salary_text job) = true ->
   formatSalary toLocaleString job = salary_text job) /\
  formatSalary toLocaleString job <> Some [].
Proof.
  unfold formatSalary.
  pose proof (currency_symbol_nonempty job) as Hs.
  destruct (truthy (salary_text job)) eqn:T.
  - destruct (truthy_cases (salary_text job)) as [(_ & c & t & E) | (F & _)];
      [|congruence].
    rewrite E. repeat split; try discriminate.
    intros [H _]. discriminate.
  - destruct (number_truthy (salary_min job)); simpl.
    + destruct (number_truthy (salary_max job)); simpl;
        (split; [split; [discriminate | intros [_ H]; discriminate]|]);
        (split; [discriminate|]);
        destruct (currency_symbol job); [congruence | discriminate
                                        | congruence | discriminate].
    + repeat split; try discriminate.
Qed.

Lemma formatSalary_null_iff_witness :
  formatSalary (fun _ => lit "90,000")
    {| salary_text := Some []; salary_min := None;
       salary_max := Some (of_Z 90000); salary_currency := Some (lit "EUR") |}
  = None.
Proof.
  destruct (formatSalary_null_iff (fun _ => lit "90,000")
              {| salary_text := Some []; salary_min := None;
                 salary_max := Some (of_Z 90000);
                 salary_currency := Some (lit "EUR") |}) as [[_ H] _].
  apply H. split; reflexivity.
Defined.

(** ** getUserId *)

(** X13: whatever localStorage holds and whatever Math.random gives,
    getUserId returns a non-empty id and leaves exactly that id stored, and
    every later call returns the same id and leaves the store alone. *)
Theorem getUserId_stable (suffix suffix' : jsstring) (stored : option jsstring) :
  fst (getUserId suffix stored) <> [] /\
  snd (getUserId suffix stored) = Some (fst (getUserId suffix stored)) /\
  getUserId suffix' (snd (getUserId suffix stored)) = getUserId suffix stored.
Proof.
  destruct stored as [[|c id]|]; simpl; repeat split; discriminate.
Qed.

(** ** The job modal *)

Lemma fire_all_keeps_hidden (ts : list JobModal.modal_timer) (m : JobModal.modal) :
  JobModal.hidden m = true -> JobModal.hidden (JobModal.fire_all ts m) = true.
Proof.
  revert m. induction ts as [|t ts IH]; intros m H; simpl; [exact H|].
  apply IH. destruct t; [exact H | reflexivity].
Qed.

Lemma fire_all_finish_leave (ts : list JobModal.modal_timer) (m : JobModal.modal) :
  In JobModal.FinishLeave ts -> JobModal.hidden (JobModal.fire_all ts m) = true.
Proof.
  revert m. induction ts as [|t ts IH]; intros m; simpl; [intros []|].
  intros [-> | H]; [|apply IH, H].
  apply fire_all_keeps_hidden. reflexivity.
Qed.

Lemma fire_all_without_leave (ts : list JobModal.modal_timer) (m : JobModal.modal) :
  ~ In JobModal.FinishLeave ts ->
  JobModal.hidden (JobModal.fire_all ts m) = JobModal.hidden m.
Proof.
  revert m. induction ts as [|t ts IH]; intros m H; simpl; [reflexivity|].
  rewrite IH; [|intros Hin; apply H; right; exact Hin].
  destruct t; [reflexivity|]. exfalso. apply H. left. reflexivity.
Qed.

(** X14: closeJobModal does not cancel, and displayJobModal does not wait
    for, the 250 ms timer of a close. When the modal is closed and then
    displayed again before that timer has fired, the modal ends up hidden
    once its pending timers have run, in whatever order; a modal displayed
    with no close timer pending stays visible. *)
Theorem job_modal_reopen_race (m : JobModal.modal) (ts : list JobModal.modal_timer) :
  (incl (JobModal.pending (JobModal.displayJobModal (JobModal.closeJobModal m))) ts ->
   JobModal.hidden
     (JobModal.fire_all ts (JobModal.displayJobModal (JobModal.closeJobModal m)))
   = true) /\
  (~ In JobModal.FinishLeave (JobModal.pending m) ->
   incl ts (JobModal.pending (JobModal.displayJobModal m)) ->
   JobModal.hidden (JobModal.fire_all ts (JobModal.displayJobModal m)) = false).
Proof.
  split.
  - intros H. apply fire_all_finish_leave, H. simpl.
    apply in_or_app. left. apply in_or_app. right. left. reflexivity.
  - intros Hn H. rewrite fire_all_without_leave; [reflexivity|].
    intros Hin. apply H in Hin. simpl in Hin.
    apply in_app_or in Hin as [Hin | [Hin | []]]; [exact (Hn Hin) | discriminate].
Qed.

Lemma job_modal_reopen_race_witness :
  JobModal.hidden
    (JobModal.fire_all [JobModal.RemoveEnter; JobModal.FinishLeave]
       (JobModal.displayJobModal
          (JobModal.closeJobModal
             {| JobModal.hidden := false; JobModal.modal_enter := false;
                JobModal.modal_leave := false; JobModal.pending := [] |}))) = true /\
  JobModal.hidden
    (JobModal.fire_all [JobModal.RemoveEnter]
       (JobModal.displayJobModal
          {| JobModal.hidden := true; JobModal.modal_enter := false;
             JobModal.modal_leave := false; JobModal.pending := [] |})) = false.
Proof.
  split.
  - apply (job_modal_reopen_race
             {| JobModal.hidden := false; JobModal.modal_enter := false;
                JobModal.modal_leave := false; JobModal.pending := [] |}
             [JobModal.RemoveEnter; JobModal.FinishLeave]).
    intros t [<- | [<- | []]]; simpl; auto.
  - apply (job_modal_reopen_race
             {| JobModal.hidden := true; JobModal.modal_enter := false;
                JobModal.modal_leave := false; JobModal.pending := [] |}
             [JobModal.RemoveEnter]).
    + intros [].
    + intros t [<- | []]. left. reflexivity.
Defined.

(** ** demoScrape *)

Lemma demoScrape_resume_fetched o (r : DemoResponse) (p : page) :
  fetched o = Some r ->
  demoScrape_resume o p
  = {| page_app :=
         showNotification
           (lit "Successfully scraped " ++ decimal (count r) ++ lit " jobs") success
           (displayDemoResults (results r) (page_app p));
       overlays := tl (overlays p) |}.
Proof.
  intros H. unfold demoScrape_resume.
  rewrite (apiCall_settle_fetched o r _ H). reflexivity.
Qed.

Lemma demoScrape_resume_failure o (e : js_error) (p : page) :
  failure_of o = Some e ->
  demoScrape_resume o p
  = {| page_app :=
         showNotification (lit "Demo scraping failed") error
           (showNotification (lit "API call failed: " ++ message e) error
              (console_error (lit "API call failed:") (page_app p)));
       overlays := tl (overlays p) |}.
Proof.
  intros H. unfold demoScrape_resume.
  rewrite (apiCall_settle_failure o e _ H). reflexivity.
Qed.

(** X15: a demo scrape started from a textarea that is not blank, with at
    most one loading overlay on the page, leaves no overlay once its request
    is answered, whether the request succeeds or fails. On success it shows
    the job postings of the results without storing them, so that a search
    with a blank query afterwards shows the stored list again; on failure it
    shows two error notifications and leaves the grid alone. *)
Theorem demoScrape_overlay_and_results o (p : page) :
  forallb is_white_space (job_urls (page_app p)) = false ->
  (List.length (overlays p) <= 1)%nat ->
  let p' := demoScrape_resume o (demoScrape p) in
  overlays (demoScrape p) = [lit "Scraping jobs..."] /\
  overlays p' = [] /\
  currentJobs (page_app p') = currentJobs (page_app p) /\
  (forall r, fetched o = Some r ->
     jobs_grid (page_app p') = map job_posting (results r) /\
     emitted (page_app p) (page_app p')
       = [(lit "Successfully scraped " ++ decimal (count r) ++ lit " jobs", success)] /\
     forall (lower : jsstring -> jsstring) (query : jsstring),
       forallb is_white_space query = true ->
       jobs_grid (snd (searchJobs lower query (page_app p')))
         = currentJobs (page_app p)) /\
  (forall e, failure_of o = Some e ->
     jobs_grid (page_app p') = jobs_grid (page_app p) /\
     emitted (page_app p) (page_app p')
       = [(lit "API call failed: " ++ message e, error);
          (lit "Demo scraping failed", error)]).
Proof.
  intros W L p'.
  pose proof (getJobUrls_nil_iff (page_app p)) as I.
  assert (E : demoScrape p
              = {| page_app := apiCall_request
                                 (Post demo_url (getJobUrls (page_app p))) (page_app p);
                   overlays := tl (overlays p) ++ [lit "Scraping jobs..."] |}).
  { unfold demoScrape. destruct (getJobUrls (page_app p)) as [|u us] eqn:U.
    - destruct I as [I _]. rewrite (I eq_refl) in W. discriminate.
    - reflexivity. }
  assert (O : tl (overlays p) = []).
  { destruct (overlays p) as [|x [|y l]]; try reflexivity. simpl in L. lia. }
  subst p'. rewrite E, O. simpl.
  split; [reflexivity|].
  destruct (fetched_xor_failure o) as [(r & Hf & Hn) | (e & He & Hn)].
  - rewrite (demoScrape_resume_fetched o r _ Hf). simpl.
    unfold displayDemoResults.
    split; [reflexivity|].
    split; [exact (proj1 (displayJobs_frame _ _))|]. split.
    + intros r' Hr'. rewrite Hf in Hr'. injection Hr' as <-.
      split; [apply displayJobs_grid|]. split.
      * apply emitted_app. simpl.
        destruct (displayJobs_frame (map job_posting (results r))
                    (apiCall_request (Post demo_url (getJobUrls (page_app p)))
                                     (page_app p))) as [_ Nf].
        rewrite Nf. reflexivity.
      * intros lower query Wq. rewrite (searchJobs_blank lower query _ Wq). simpl.
        rewrite displayJobs_grid. simpl. exact (proj1 (displayJobs_frame _ _)).
    + intros e He. congruence.
  - rewrite (demoScrape_resume_failure o e _ He). simpl.
    split; [reflexivity|]. split; [reflexivity|]. split.
    + intros r Hr. congruence.
    + intros e' He'. rewrite He in He'. injection He' as <-.
      split; [reflexivity|]. apply emitted_app. simpl.
      rewrite <- app_assoc. reflexivity.
Qed.

Lemma demoScrape_overlay_and_results_witness :
  overlays (demoScrape_resume (Responded 200 (inr {| results := []; count := 0 |}))
              (demoScrape {| page_app := two_urls_app; overlays := [lit "Loading..."] |}))
    = [] /\
  jobs_grid
    (page_app
       (demoScrape_resume (Responded 200 (inr {| results := []; count := 0 |}))
          (demoScrape {| page_app := two_urls_app; overlays := [lit "Loading..."] |})))
    = [] /\
  jobs_grid
    (page_app
       (demoScrape_resume (Rejected {| message := lit "Failed to fetch" |})
          (demoScrape {| page_app := two_urls_app; overlays := [lit "Loading..."] |})))
    = sample_jobs.
Proof.
  assert (L : (List.length (overlays {| page_app := two_urls_app;
                                        overlays := [lit "Loading..."] |}) <= 1)%nat)
    by (simpl; lia).
  destruct (demoScrape_overlay_and_results
              (Responded 200 (inr {| results := []; count := 0 |}))
              {| page_app := two_urls_app; overlays := [lit "Loading..."] |}
              eq_refl L) as (_ & O & _ & S & _).
  destruct (demoScrape_overlay_and_results
              (Rejected {| message := lit "Failed to fetch" |})
              {| page_app := two_urls_app; overlays := [lit "Loading..."] |}
              eq_refl L) as (_ & _ & _ & _ & F).
  split; [exact O|]. split.
  - exact (proj1 (S _ eq_refl)).
  - exact (proj1 (F _ eq_refl)).
Defined.

(** ** The length of a poll chain *)

Lemma starts_with_spec (p s : jsstring) :
  starts_with p s = true <-> exists post, s = p ++ post.
Proof.
  revert s. induction p as [|c p IH]; intros s; simpl.
  - split; [intros _; exists s; reflexivity | reflexivity].
  - destruct s as [|d s]; [split; [discriminate | intros [post H]; discriminate]|].
    rewrite andb_true_iff, N.eqb_eq, IH. split.
    + intros [-> [post ->]]. exists post. reflexivity.
    + intros [post H]. injection H as -> ->. split; [reflexivity | exists post; reflexivity].
Qed.

(** [includes] is the search for a contiguous occurrence. *)
Lemma includes_spec (s q : jsstring) :
  includes s q = true <-> exists pre post, s = pre ++ q ++ post.
Proof.
  induction s as [|c s IH]; simpl.
  - rewrite orb_false_r, starts_with_spec. split.
    + intros [post H]. exists [], post. exact H.
    + intros (pre & post & H). destruct pre; [exists post; exact H|discriminate].
  - rewrite orb_true_iff, starts_with_spec, IH. split.
    + intros [[post H] | (pre & post & H)].
      * exists [], post. exact H.
      * exists (c :: pre), post. simpl. congruence.
    + intros (pre & post & H). destruct pre as [|d pre].
      * left. exists post. exact H.
      * right. injection H as _ H. exists pre, post. exact H.
Qed.

Lemma chain_events_idle os (a : app) :
  awaiting_status a = 0%nat -> timers a = [] ->
  run (chain_events os) a = a.
Proof.
  intros Hs Ht. induction os as [|o os IH]; [reflexivity|].
  unfold run, chain_events in *. simpl. rewrite Hs. simpl. rewrite Ht. exact IH.
Qed.

Lemma terminal_poll_hides_progress o (a : app) :
  observes_running o = false -> progress_hidden (checkProgress_resume o a) = true.
Proof.
  intros Hr. unfold observes_running in Hr.
  destruct (fetched_xor_failure o) as [(v & Hv & _) | (e & He & _)].
  - rewrite Hv in Hr. destruct v as [s|].
    + rewrite (checkProgress_resume_fetched o s a Hv). unfold checkProgress_branch.
      rewrite Hr. destruct (jsstring_eqb (status s) (lit "completed")); reflexivity.
    + rewrite (checkProgress_resume_null o a Hv). reflexivity.
  - rewrite (checkProgress_resume_failure o e a He). reflexivity.
Qed.

Lemma chain_from_await os (a : app) :
  awaiting_status a = 1%nat -> timers a = [] ->
  let final := run (chain_events os) a in
  status_polls final = (status_polls a + running_prefix os)%nat /\
  (running_prefix os < List.length os ->
   progress_hidden final = true /\ awaiting_status final = 0%nat /\ timers final = [])%nat /\
  (running_prefix os = List.length os ->
   awaiting_status final = 1%nat /\ timers final = []).
Proof.
  revert a. induction os as [|o os IH]; intros a Hs Ht final; subst final.
  - simpl. split; [lia|]. split; [lia|]. intros _. split; assumption.
  - change (run (chain_events (o :: os)) a)
      with (run (chain_events os) (step TimerFires (step (StatusSettles o) a))).
    simpl running_prefix. destruct (observes_running o) eqn:Hr.
    + apply observes_running_spec in Hr as (s & Hf & Hst).
      rewrite (running_poll_round o s a Hf Hst Hs Ht).
      specialize (IH (checkProgress_request (updateProgress_dom s (with_awaiting_status 0 a)))
                     eq_refl Ht).
      simpl in IH. destruct IH as (P & T & R).
      rewrite checkProgress_request_polls in P.
      split; [rewrite P; unfold status_polls; simpl; lia|].
      split; [intros H; apply T; simpl in H; lia | intros H; apply R; simpl in H; lia].
    + pose proof (checkProgress_resume_timers o (with_awaiting_status 0 a)) as Htm.
      rewrite Hr in Htm. simpl in Htm. rewrite Ht in Htm.
      destruct (checkProgress_resume_polls o (with_awaiting_status 0 a)) as (Hp & Hw & _).
      assert (E : step TimerFires (step (StatusSettles o) a)
                  = checkProgress_resume o (with_awaiting_status 0 a)).
      { simpl. rewrite Hs, Htm. reflexivity. }
      rewrite E, chain_events_idle; [|exact Hw | exact Htm].
      split; [rewrite Hp; unfold status_polls; simpl; lia|].
      split.
      * intros _. split; [apply terminal_poll_hides_progress, Hr|].
        split; [exact Hw | exact Htm].
      * simpl. intros H. lia.
Qed.

(** X16: a monitor started on a stored session, with no chain alive, sends
    one poll and then one more for every answer that observes "running"
    before the first answer that does not; later answers are never used.
    Once an answer did not observe "running" the progress section is hidden
    and nothing is awaited or scheduled; while every answer so far observed
    "running", exactly one poll is awaited. *)
Theorem poll_chain_length os (a : app) :
  truthy (currentSession a) = true ->
  awaiting_status a = 0%nat -> timers a = [] ->
  let final := run (chain_events os) (monitorScrapingProgress a) in
  status_polls final = S (status_polls a + running_prefix os) /\
  (running_prefix os < List.length os ->
   progress_hidden final = true /\ awaiting_status final = 0%nat /\ timers final = [])%nat /\
  (running_prefix os = List.length os ->
   awaiting_status final = 1%nat /\ timers final = []).
Proof.
  intros Ht Hs Htm final. subst final.
  rewrite (monitor_with_session a Ht).
  destruct (chain_from_await os (checkProgress_request a)) as (P & T & R);
    [simpl; congruence | exact Htm |].
  rewrite checkProgress_request_polls in P.
  split; [rewrite P; lia|]. split; assumption.
Qed.

Lemma poll_chain_length_witness :
  status_polls
    (run (chain_events [ok_status running_status; ok_status running_status';
                        network_down; ok_status running_status;
                        ok_status completed_status])
         (monitorScrapingProgress sample_app)) = 3%nat /\
  progress_hidden
    (run (chain_events [ok_status running_status; ok_status running_status';
                        network_down; ok_status running_status;
                        ok_status completed_status])
         (monitorScrapingProgress sample_app)) = true.
Proof.
  destruct (poll_chain_length
              [ok_status running_status; ok_status running_status';
               network_down; ok_status running_status; ok_status completed_status]
              sample_app eq_refl eq_refl eq_refl) as (P & T & _).
  split; [exact P|].
  apply T. simpl. lia.
Defined.
